(** * Draft/publish reconciliation of the AI Twitter Bot client

    A shallow embedding of [frontend/src/App.tsx]: the signals of the [App]
    component, the browser's [localStorage], the event handlers and the
    asynchronous functions, followed by the properties of the draft list,
    the persisted snapshot and the session.

    Conventions of the embedding.
    - A JavaScript string is a [string]; one character stands for one UTF-16
      code unit (code units below 256), so [String.length] is [.length]. The
      two emoji that open the lines of the transcript are written as their
      UTF-8 bytes; no property depends on them.
    - Numbers used as ids and timestamps are [Z].
    - [null] and [undefined] are [None]; a field that a reply may lack
      ([access_token], [content]) and the [text] of an entry, which comes
      from [content], are options.
    - The values stored under the keys [generatedTweets] and [draftTweets] are
      kept decoded: [JSON.parse (JSON.stringify l)] is [l] for a list of
      [{id, text, posted}] objects, and the keys are only written by the
      component's own effects.
    - An [async] function is cut at each [await] of a [fetch]: the part that
      runs synchronously returns the new state and, when a request is left
      outstanding, the continuation that handles its reply.
    - The browser's event loop is a step relation on pages: a task is a user
      action, the reply to an outstanding request, or a reload; replies come in
      any order.
    - Effects run in the order of their creation; [onMount] is the last of
      them. An effect that reads [generatedTweets] runs again after each write
      of the signal, once the rows of the lists have been rebuilt.
    - The row of a draft reads [tweet.text.length]: with a draft that has no
      text the rebuilding of the rows throws a [TypeError] out of the setter,
      and the effects that were to run after it are dropped. The component
      has no error boundary: what such a page does next, short of a reload,
      is not described.
    - The [theme] signal is modelled apart from the page; the [searchTerm]
      signal only drives presentation and is left out. *)

From Stdlib Require Import ZArith List String Ascii Bool Lia Permutation.
Import ListNotations.

#[local] Set Warnings "-register-all".
#[local] Open Scope string_scope.
#[local] Open Scope list_scope.
#[local] Open Scope Z_scope.

(** ** JavaScript string helpers *)

Module Js.

(** [s] used as a condition: the empty string is falsy. *)
Definition truthy (s : string) : bool := negb (String.eqb s "").

(** [o] used as a condition, for a value that is a string or [null]. *)
Definition truthy_opt (o : option string) : bool :=
  match o with Some s => truthy s | None => false end.

(** White space removed by [String.prototype.trim], among code units
    below 256: TAB, LF, VT, FF, CR, SPACE and NBSP. *)
Definition is_space (c : ascii) : bool :=
  let n := nat_of_ascii c in
  ((9 <=? n)%nat && (n <=? 13)%nat) || (n =? 32)%nat || (n =? 160)%nat.

(** [!s.trim()]: nothing is left of [s] once it is trimmed. *)
Fixpoint blank (s : string) : bool :=
  match s with
  | EmptyString => true
  | String c s' => is_space c && blank s'
  end.

(** [hay.includes(needle)]. *)
Fixpoint includes (hay needle : string) : bool :=
  String.prefix needle hay ||
  match hay with
  | EmptyString => false
  | String _ hay' => includes hay' needle
  end.

(** [a || b] on two values that are strings or [undefined]. *)
Definition or (a b : option string) : option string :=
  if truthy_opt a then a else b.

(** A value interpolated in a template literal. *)
Definition show (o : option string) : string :=
  match o with Some s => s | None => "undefined" end.

(** The double quote character, as a one-character string. *)
Definition dquote : string := String (ascii_of_nat 34) EmptyString.

(** The message of the [TypeError] thrown by [undefined.length]; the wording
    is the engine's, here V8's. *)
Definition no_length : string :=
  "Cannot read properties of undefined (reading 'length')".

End Js.

(** ** Data model *)

Definition MAX_CHAR_LIMIT : nat := 280.

(** An entry of the [generatedTweets] signal. The [text] is what the
    generation service sent under [content]: [None] when it sent nothing. *)
Record GeneratedItem := { id : Z; text : option string; posted : bool }.

(** A tweet object as the backend returns it; the text comes under [content]
    or under [text]. *)
Record Tweet := { tweet_id : Z; tweet_content : option string; tweet_text : option string }.

Inductive MessageType := info | error | success.

Record MessageBox := { message : string; type : MessageType }.

(** The browser's durable key-value store, with the keys the component uses. *)
Module LocalStorage.

Record t := { authToken : option string;
              loggedInUser : option string;
              generatedTweets : option (list GeneratedItem);
              draftTweets : option (list GeneratedItem) }.

Definition empty : t :=
  {| authToken := None; loggedInUser := None;
     generatedTweets := None; draftTweets := None |}.

Definition setAuthToken (v : option string) (s : t) : t :=
  {| authToken := v; loggedInUser := loggedInUser s;
     generatedTweets := generatedTweets s; draftTweets := draftTweets s |}.

Definition setLoggedInUser (v : option string) (s : t) : t :=
  {| authToken := authToken s; loggedInUser := v;
     generatedTweets := generatedTweets s; draftTweets := draftTweets s |}.

Definition setGeneratedTweets (v : option (list GeneratedItem)) (s : t) : t :=
  {| authToken := authToken s; loggedInUser := loggedInUser s;
     generatedTweets := v; draftTweets := draftTweets s |}.

Definition setDraftTweets (v : option (list GeneratedItem)) (s : t) : t :=
  {| authToken := authToken s; loggedInUser := loggedInUser s;
     generatedTweets := generatedTweets s; draftTweets := v |}.

End LocalStorage.

(** The state of the page: the signals of [App], the store, the host name the
    page is served from and the value [Date.now()] returns during the task
    that is running. *)
Record App := {
  command : string;
  history : list string;
  isPosting : bool;
  generatedTweet : option string;
  isGenerating : bool;
  messageBox : option MessageBox;
  showAuthModal : bool;
  isLoginMode : bool;
  authUsername : string;
  authPassword : string;
  loggedInUser : option string;
  lastTweetId : option Z;
  showTweetFeedback : bool;
  tweets : list Tweet;
  generatedTweets : list GeneratedItem;
  apiError : option string;
  myTweets : list Tweet;
  isTyping : bool;
  localStorage : LocalStorage.t;
  hostname : string;
  clock : Z
}.

(** *** Signal setters

    One setter per signal. [writeGeneratedTweets] is the bare write of the
    [generatedTweets] signal; [setGeneratedTweets] below adds the effects that
    observe it. *)

Definition setCommand (v : string) (a : App) : App :=
  {| command := v; history := history a; isPosting := isPosting a;
     generatedTweet := generatedTweet a; isGenerating := isGenerating a;
     messageBox := messageBox a; showAuthModal := showAuthModal a;
     isLoginMode := isLoginMode a; authUsername := authUsername a;
     authPassword := authPassword a; loggedInUser := loggedInUser a;
     lastTweetId := lastTweetId a; showTweetFeedback := showTweetFeedback a;
     tweets := tweets a; generatedTweets := generatedTweets a; apiError := apiError a;
     myTweets := myTweets a; isTyping := isTyping a; localStorage := localStorage a;
     hostname := hostname a; clock := clock a |}.

Definition setHistory (v : list string) (a : App) : App :=
  {| command := command a; history := v; isPosting := isPosting a;
     generatedTweet := generatedTweet a; isGenerating := isGenerating a;
     messageBox := messageBox a; showAuthModal := showAuthModal a;
     isLoginMode := isLoginMode a; authUsername := authUsername a;
     authPassword := authPassword a; loggedInUser := loggedInUser a;
     lastTweetId := lastTweetId a; showTweetFeedback := showTweetFeedback a;
     tweets := tweets a; generatedTweets := generatedTweets a; apiError := apiError a;
     myTweets := myTweets a; isTyping := isTyping a; localStorage := localStorage a;
     hostname := hostname a; clock := clock a |}.

Definition setIsPosting (v : bool) (a : App) : App :=
  {| command := command a; history := history a; isPosting := v;
     generatedTweet := generatedTweet a; isGenerating := isGenerating a;
     messageBox := messageBox a; showAuthModal := showAuthModal a;
     isLoginMode := isLoginMode a; authUsername := authUsername a;
     authPassword := authPassword a; loggedInUser := loggedInUser a;
     lastTweetId := lastTweetId a; showTweetFeedback := showTweetFeedback a;
     tweets := tweets a; generatedTweets := generatedTweets a; apiError := apiError a;
     myTweets := myTweets a; isTyping := isTyping a; localStorage := localStorage a;
     hostname := hostname a; clock := clock a |}.

Definition setGeneratedTweet (v : option string) (a : App) : App :=
  {| command := command a; history := history a; isPosting := isPosting a;
     generatedTweet := v; isGenerating := isGenerating a; messageBox := messageBox a;
     showAuthModal := showAuthModal a; isLoginMode := isLoginMode a;
     authUsername := authUsername a; authPassword := authPassword a;
     loggedInUser := loggedInUser a; lastTweetId := lastTweetId a;
     showTweetFeedback := showTweetFeedback a; tweets := tweets a;
     generatedTweets := generatedTweets a; apiError := apiError a; myTweets := myTweets a;
     isTyping := isTyping a; localStorage := localStorage a; hostname := hostname a;
     clock := clock a |}.

Definition setIsGenerating (v : bool) (a : App) : App :=
  {| command := command a; history := history a; isPosting := isPosting a;
     generatedTweet := generatedTweet a; isGenerating := v; messageBox := messageBox a;
     showAuthModal := showAuthModal a; isLoginMode := isLoginMode a;
     authUsername := authUsername a; authPassword := authPassword a;
     loggedInUser := loggedInUser a; lastTweetId := lastTweetId a;
     showTweetFeedback := showTweetFeedback a; tweets := tweets a;
     generatedTweets := generatedTweets a; apiError := apiError a; myTweets := myTweets a;
     isTyping := isTyping a; localStorage := localStorage a; hostname := hostname a;
     clock := clock a |}.

Definition setMessageBox (v : option MessageBox) (a : App) : App :=
  {| command := command a; history := history a; isPosting := isPosting a;
     generatedTweet := generatedTweet a; isGenerating := isGenerating a; messageBox := v;
     showAuthModal := showAuthModal a; isLoginMode := isLoginMode a;
     authUsername := authUsername a; authPassword := authPassword a;
     loggedInUser := loggedInUser a; lastTweetId := lastTweetId a;
     showTweetFeedback := showTweetFeedback a; tweets := tweets a;
     generatedTweets := generatedTweets a; apiError := apiError a; myTweets := myTweets a;
     isTyping := isTyping a; localStorage := localStorage a; hostname := hostname a;
     clock := clock a |}.

Definition setShowAuthModal (v : bool) (a : App) : App :=
  {| command := command a; history := history a; isPosting := isPosting a;
     generatedTweet := generatedTweet a; isGenerating := isGenerating a;
     messageBox := messageBox a; showAuthModal := v; isLoginMode := isLoginMode a;
     authUsername := authUsername a; authPassword := authPassword a;
     loggedInUser := loggedInUser a; lastTweetId := lastTweetId a;
     showTweetFeedback := showTweetFeedback a; tweets := tweets a;
     generatedTweets := generatedTweets a; apiError := apiError a; myTweets := myTweets a;
     isTyping := isTyping a; localStorage := localStorage a; hostname := hostname a;
     clock := clock a |}.

Definition setIsLoginMode (v : bool) (a : App) : App :=
  {| command := command a; history := history a; isPosting := isPosting a;
     generatedTweet := generatedTweet a; isGenerating := isGenerating a;
     messageBox := messageBox a; showAuthModal := showAuthModal a; isLoginMode := v;
     authUsername := authUsername a; authPassword := authPassword a;
     loggedInUser := loggedInUser a; lastTweetId := lastTweetId a;
     showTweetFeedback := showTweetFeedback a; tweets := tweets a;
     generatedTweets := generatedTweets a; apiError := apiError a; myTweets := myTweets a;
     isTyping := isTyping a; localStorage := localStorage a; hostname := hostname a;
     clock := clock a |}.

Definition setAuthUsername (v : string) (a : App) : App :=
  {| command := command a; history := history a; isPosting := isPosting a;
     generatedTweet := generatedTweet a; isGenerating := isGenerating a;
     messageBox := messageBox a; showAuthModal := showAuthModal a;
     isLoginMode := isLoginMode a; authUsername := v; authPassword := authPassword a;
     loggedInUser := loggedInUser a; lastTweetId := lastTweetId a;
     showTweetFeedback := showTweetFeedback a; tweets := tweets a;
     generatedTweets := generatedTweets a; apiError := apiError a; myTweets := myTweets a;
     isTyping := isTyping a; localStorage := localStorage a; hostname := hostname a;
     clock := clock a |}.

Definition setAuthPassword (v : string) (a : App) : App :=
  {| command := command a; history := history a; isPosting := isPosting a;
     generatedTweet := generatedTweet a; isGenerating := isGenerating a;
     messageBox := messageBox a; showAuthModal := showAuthModal a;
     isLoginMode := isLoginMode a; authUsername := authUsername a; authPassword := v;
     loggedInUser := loggedInUser a; lastTweetId := lastTweetId a;
     showTweetFeedback := showTweetFeedback a; tweets := tweets a;
     generatedTweets := generatedTweets a; apiError := apiError a; myTweets := myTweets a;
     isTyping := isTyping a; localStorage := localStorage a; hostname := hostname a;
     clock := clock a |}.

Definition setLoggedInUser (v : option string) (a : App) : App :=
  {| command := command a; history := history a; isPosting := isPosting a;
     generatedTweet := generatedTweet a; isGenerating := isGenerating a;
     messageBox := messageBox a; showAuthModal := showAuthModal a;
     isLoginMode := isLoginMode a; authUsername := authUsername a;
     authPassword := authPassword a; loggedInUser := v; lastTweetId := lastTweetId a;
     showTweetFeedback := showTweetFeedback a; tweets := tweets a;
     generatedTweets := generatedTweets a; apiError := apiError a; myTweets := myTweets a;
     isTyping := isTyping a; localStorage := localStorage a; hostname := hostname a;
     clock := clock a |}.

Definition setLastTweetId (v : option Z) (a : App) : App :=
  {| command := command a; history := history a; isPosting := isPosting a;
     generatedTweet := generatedTweet a; isGenerating := isGenerating a;
     messageBox := messageBox a; showAuthModal := showAuthModal a;
     isLoginMode := isLoginMode a; authUsername := authUsername a;
     authPassword := authPassword a; loggedInUser := loggedInUser a; lastTweetId := v;
     showTweetFeedback := showTweetFeedback a; tweets := tweets a;
     generatedTweets := generatedTweets a; apiError := apiError a; myTweets := myTweets a;
     isTyping := isTyping a; localStorage := localStorage a; hostname := hostname a;
     clock := clock a |}.

Definition setShowTweetFeedback (v : bool) (a : App) : App :=
  {| command := command a; history := history a; isPosting := isPosting a;
     generatedTweet := generatedTweet a; isGenerating := isGenerating a;
     messageBox := messageBox a; showAuthModal := showAuthModal a;
     isLoginMode := isLoginMode a; authUsername := authUsername a;
     authPassword := authPassword a; loggedInUser := loggedInUser a;
     lastTweetId := lastTweetId a; showTweetFeedback := v; tweets := tweets a;
     generatedTweets := generatedTweets a; apiError := apiError a; myTweets := myTweets a;
     isTyping := isTyping a; localStorage := localStorage a; hostname := hostname a;
     clock := clock a |}.

Definition setTweets (v : list Tweet) (a : App) : App :=
  {| command := command a; history := history a; isPosting := isPosting a;
     generatedTweet := generatedTweet a; isGenerating := isGenerating a;
     messageBox := messageBox a; showAuthModal := showAuthModal a;
     isLoginMode := isLoginMode a; authUsername := authUsername a;
     authPassword := authPassword a; loggedInUser := loggedInUser a;
     lastTweetId := lastTweetId a; showTweetFeedback := showTweetFeedback a; tweets := v;
     generatedTweets := generatedTweets a; apiError := apiError a; myTweets := myTweets a;
     isTyping := isTyping a; localStorage := localStorage a; hostname := hostname a;
     clock := clock a |}.

Definition writeGeneratedTweets (v : list GeneratedItem) (a : App) : App :=
  {| command := command a; history := history a; isPosting := isPosting a;
     generatedTweet := generatedTweet a; isGenerating := isGenerating a;
     messageBox := messageBox a; showAuthModal := showAuthModal a;
     isLoginMode := isLoginMode a; authUsername := authUsername a;
     authPassword := authPassword a; loggedInUser := loggedInUser a;
     lastTweetId := lastTweetId a; showTweetFeedback := showTweetFeedback a;
     tweets := tweets a; generatedTweets := v; apiError := apiError a;
     myTweets := myTweets a; isTyping := isTyping a; localStorage := localStorage a;
     hostname := hostname a; clock := clock a |}.

Definition setApiError (v : option string) (a : App) : App :=
  {| command := command a; history := history a; isPosting := isPosting a;
     generatedTweet := generatedTweet a; isGenerating := isGenerating a;
     messageBox := messageBox a; showAuthModal := showAuthModal a;
     isLoginMode := isLoginMode a; authUsername := authUsername a;
     authPassword := authPassword a; loggedInUser := loggedInUser a;
     lastTweetId := lastTweetId a; showTweetFeedback := showTweetFeedback a;
     tweets := tweets a; generatedTweets := generatedTweets a; apiError := v;
     myTweets := myTweets a; isTyping := isTyping a; localStorage := localStorage a;
     hostname := hostname a; clock := clock a |}.

Definition setMyTweets (v : list Tweet) (a : App) : App :=
  {| command := command a; history := history a; isPosting := isPosting a;
     generatedTweet := generatedTweet a; isGenerating := isGenerating a;
     messageBox := messageBox a; showAuthModal := showAuthModal a;
     isLoginMode := isLoginMode a; authUsername := authUsername a;
     authPassword := authPassword a; loggedInUser := loggedInUser a;
     lastTweetId := lastTweetId a; showTweetFeedback := showTweetFeedback a;
     tweets := tweets a; generatedTweets := generatedTweets a; apiError := apiError a;
     myTweets := v; isTyping := isTyping a; localStorage := localStorage a;
     hostname := hostname a; clock := clock a |}.

Definition setIsTyping (v : bool) (a : App) : App :=
  {| command := command a; history := history a; isPosting := isPosting a;
     generatedTweet := generatedTweet a; isGenerating := isGenerating a;
     messageBox := messageBox a; showAuthModal := showAuthModal a;
     isLoginMode := isLoginMode a; authUsername := authUsername a;
     authPassword := authPassword a; loggedInUser := loggedInUser a;
     lastTweetId := lastTweetId a; showTweetFeedback := showTweetFeedback a;
     tweets := tweets a; generatedTweets := generatedTweets a; apiError := apiError a;
     myTweets := myTweets a; isTyping := v; localStorage := localStorage a;
     hostname := hostname a; clock := clock a |}.

Definition withLocalStorage (v : LocalStorage.t) (a : App) : App :=
  {| command := command a; history := history a; isPosting := isPosting a;
     generatedTweet := generatedTweet a; isGenerating := isGenerating a;
     messageBox := messageBox a; showAuthModal := showAuthModal a;
     isLoginMode := isLoginMode a; authUsername := authUsername a;
     authPassword := authPassword a; loggedInUser := loggedInUser a;
     lastTweetId := lastTweetId a; showTweetFeedback := showTweetFeedback a;
     tweets := tweets a; generatedTweets := generatedTweets a; apiError := apiError a;
     myTweets := myTweets a; isTyping := isTyping a; localStorage := v;
     hostname := hostname a; clock := clock a |}.

Definition atTime (v : Z) (a : App) : App :=
  {| command := command a; history := history a; isPosting := isPosting a;
     generatedTweet := generatedTweet a; isGenerating := isGenerating a;
     messageBox := messageBox a; showAuthModal := showAuthModal a;
     isLoginMode := isLoginMode a; authUsername := authUsername a;
     authPassword := authPassword a; loggedInUser := loggedInUser a;
     lastTweetId := lastTweetId a; showTweetFeedback := showTweetFeedback a;
     tweets := tweets a; generatedTweets := generatedTweets a; apiError := apiError a;
     myTweets := myTweets a; isTyping := isTyping a; localStorage := localStorage a;
     hostname := hostname a; clock := v |}.

(** ** Auth token helpers and small state helpers *)

Definition getAuthToken (a : App) : option string :=
  match LocalStorage.authToken (localStorage a) with
  | Some token =>
      if Js.truthy token && negb (String.eqb token "undefined") then Some token else None
  | None => None
  end.

(** [localStorage.setItem] stores the string form of its argument: a missing
    token is stored as the text [undefined]. *)
Definition setAuthToken (token : option string) (a : App) : App :=
  withLocalStorage (LocalStorage.setAuthToken (Some (Js.show token)) (localStorage a)) a.

Definition clearAuthToken (a : App) : App :=
  withLocalStorage (LocalStorage.setAuthToken None (localStorage a)) a.

Definition addToHistory (line : string) (a : App) : App :=
  setHistory (history a ++ [line]) a.

Definition showMessageBox (msg : string) (ty : MessageType) (a : App) : App :=
  let a := setMessageBox (Some {| message := msg; type := ty |}) a in
  match ty with
  | error => setApiError (Some msg) a
  | _ => a
  end.

Definition closeMessageBox (a : App) : App :=
  setApiError None (setMessageBox None a).

(** ** The effects that observe [generatedTweets] *)

(** [localStorage.setItem("generatedTweets", JSON.stringify(generatedTweets()))] *)
Definition saveGeneratedTweets (a : App) : App :=
  withLocalStorage
    (LocalStorage.setGeneratedTweets (Some (generatedTweets a)) (localStorage a)) a.

(** [localStorage.setItem("draftTweets",
       JSON.stringify(generatedTweets().filter((t) => !t.posted)))] *)
Definition saveDraftTweets (a : App) : App :=
  withLocalStorage
    (LocalStorage.setDraftTweets
       (Some (filter (fun t => negb (posted t)) (generatedTweets a))) (localStorage a)) a.

(** [setGeneratedTweets((prev) => f prev)]: the write, then the two effects
    that read the signal, in the order they were created. *)
Definition setGeneratedTweets (f : list GeneratedItem -> list GeneratedItem) (a : App) : App :=
  saveDraftTweets (saveGeneratedTweets (writeGeneratedTweets (f (generatedTweets a)) a)).

(** [{ ...t, posted: true }] and [{ ...t, text: newText }] *)
Definition withPosted (t : GeneratedItem) : GeneratedItem :=
  {| id := id t; text := text t; posted := true |}.

Definition withText (newText : string) (t : GeneratedItem) : GeneratedItem :=
  {| id := id t; text := Some newText; posted := posted t |}.

(** [t.text === content] *)
Definition textIs (content : string) (t : GeneratedItem) : bool :=
  match text t with
  | Some s => String.eqb s content
  | None => false
  end.

(** The rows of the Drafts section can be built: every draft has a text, so
    that [tweet.text.length] does not throw. The rows of the Posted section
    only show the text. *)
Definition rendersList (l : list GeneratedItem) : bool :=
  forallb (fun t => posted t || match text t with Some _ => true | None => false end) l.

Definition renders (a : App) : bool := rendersList (generatedTweets a).

(** ** Remote calls *)

Inductive Request :=
| PublicPost (body_content : string) (body_posted : bool)
| DirectPost (bearer : option string) (body_content : string) (body_posted : bool)
| MirrorPost (body_username : string) (body_text : string)
| PublicTweets
| MyTweets (bearer : option string)
| Generate (bearer : option string) (body_topic : string)
| Auth (endpoint : string) (body_username : string) (body_password : string).

(** [content] is [None] when the reply carries no such field. *)
Record GenerateData := { content : option string }.
Record PostData := { tweet : Tweet }.
(** [access_token] is [None] when the reply carries no such field. *)
Record AuthData := { access_token : option string }.

(** What [res.json()] yields for each call. *)
Definition payload (rq : Request) : Type :=
  match rq with
  | PublicPost _ _ | DirectPost _ _ _ => PostData
  | MirrorPost _ _ => unit
  | PublicTweets | MyTweets _ => list Tweet
  | Generate _ _ => GenerateData
  | Auth _ _ _ => AuthData
  end.

(** The outcome of one [fetch]: the promise rejects, or it resolves to a
    response with a status, a body read as text and the same body read as
    JSON ([inl reason] when reading it throws). *)
Inductive Reply (A : Type) : Type :=
| Rejected (reason : string)
| Response (status : Z) (body : string) (json : string + A).

Arguments Rejected {A} reason.
Arguments Response {A} status body json.

(** [res.ok] *)
Definition ok (status : Z) : bool := (200 <=? status) && (status <=? 299).

(** What is left of an [async] call once its synchronous part has run. *)
Inductive Async : Type :=
| Done
| Await (rq : Request) (k : Reply (payload rq) -> App -> App * Async).

(** [await p; f()] for a promise [p] of the component and synchronous [f]. *)
Fixpoint andThenAsync (f : App -> App) (a : App) (p : Async) : App * Async :=
  match p with
  | Done => (f a, Done)
  | Await rq k =>
      (a, Await rq (fun r a' => let (a'', p') := k r a' in andThenAsync f a'' p'))
  end.

Definition andThen (f : App -> App) (r : App * Async) : App * Async :=
  andThenAsync f (fst r) (snd r).

(** ** The functions of the component *)

(** The [catch] and [finally] blocks of [handleDirectPost]. *)
Definition handleDirectPost_catch (reason : string) (a : App) : App :=
  setIsPosting false
    (showMessageBox (if Js.truthy reason then reason else "Post failed") error a).

(** The statements of [handleDirectPost] after the mirror call, with its
    [finally] block. *)
Definition handleDirectPost_success (content : string) (data : PostData) (a : App) : App :=
  let newTweet := {| tweet_id := tweet_id (tweet data);
                     tweet_content := tweet_content (tweet data);
                     tweet_text := Js.or (tweet_content (tweet data))
                                         (tweet_text (tweet data)) |} in
  let a := addToHistory ("🤖 AI: Posted: " ++ Js.dquote ++ Js.show (tweet_text newTweet)
                         ++ Js.dquote) a in
  let a := setTweets (newTweet :: tweets a) a in
  let a := setMyTweets (newTweet :: myTweets a) a in
  let a := setGeneratedTweet None a in
  let a := setShowTweetFeedback true a in
  let a := setLastTweetId (Some (tweet_id (tweet data))) a in
  let a := setGeneratedTweets
             (map (fun t => if textIs content t then withPosted t else t)) a in
  setIsPosting false a.

(** The reply of the mirror service: a rejected [fetch] is thrown inside the
    [try]; a response that is not ok is only logged. *)
Definition handleDirectPost_mirror (content : string) (data : PostData)
    (r : Reply unit) (a : App) : App :=
  match r with
  | Rejected reason => handleDirectPost_catch reason a
  | Response _ _ _ => handleDirectPost_success content data a
  end.

(** The reply of [/public-post] or [/direct-post]. *)
Definition handleDirectPost_reply (content : string) (isPublicClone : bool)
    (r : Reply PostData) (a : App) : App * Async :=
  match r with
  | Rejected reason => (handleDirectPost_catch reason a, Done)
  | Response status body json =>
      if negb (ok status) then (handleDirectPost_catch body a, Done)
      else match json with
           | inl reason => (handleDirectPost_catch reason a, Done)
           | inr data =>
               if isPublicClone then (handleDirectPost_success content data a, Done)
               else
                 let username := if Js.truthy_opt (loggedInUser a)
                                 then Js.show (loggedInUser a) else "guest" in
                 (a, Await (MirrorPost username content)
                       (fun r' a' => (handleDirectPost_mirror content data r' a', Done)))
           end
  end.

Definition handleDirectPost (content : string) (isPublic : bool) (a : App) : App * Async :=
  if Js.blank content then (showMessageBox "Cannot post empty tweet" error a, Done)
  else
    let a := setIsPosting true a in
    let isPublicClone := Js.includes (hostname a) "twitter-clone-ui.pages.dev" in
    if isPublicClone
    then (a, Await (PublicPost content true) (handleDirectPost_reply content isPublicClone))
    else (a, Await (DirectPost (getAuthToken a) content isPublic)
               (handleDirectPost_reply content isPublicClone)).

(** [fetchTweets] *)
Definition fetchTweets_reply (r : Reply (list Tweet)) (a : App) : App :=
  match r with
  | Rejected reason | Response _ _ (inl reason) =>
      setTweets [] (showMessageBox ("Network error: " ++ reason) error a)
  | Response _ _ (inr data) => setTweets data a
  end.

Definition fetchTweets (a : App) : App * Async :=
  (a, Await PublicTweets (fun r a' => (fetchTweets_reply r a', Done))).

(** [fetchMyTweets] *)
Definition fetchMyTweets_catch (a : App) : App :=
  setMessageBox
    (Some {| message := "Login required to view your tweets."; type := error |})
    (setLoggedInUser None (clearAuthToken a)).

Definition fetchMyTweets_reply (r : Reply (list Tweet)) (a : App) : App :=
  match r with
  | Rejected _ => fetchMyTweets_catch a
  | Response status _ json =>
      if negb (ok status) then fetchMyTweets_catch a
      else match json with
           | inl _ => fetchMyTweets_catch a
           | inr data => setMyTweets data a
           end
  end.

Definition fetchMyTweets (a : App) : App * Async :=
  (a, Await (MyTweets (getAuthToken a)) (fun r a' => (fetchMyTweets_reply r a', Done))).

(** [generateTweet]: its [catch] and [finally] blocks, the handling of the
    reply, and the function. A reply that is ok and parses but has no
    [content] appends an entry without a text: the signal is written, the
    rebuilding of the rows throws inside the setter, the two saving effects
    do not run, and the error is caught by the [catch] block. *)
Definition generateTweet_catch (reason : string) (a : App) : App :=
  setIsTyping false
    (setIsGenerating false
       (showMessageBox (if Js.truthy reason then reason else "Generation failed") error a)).

Definition generateTweet_reply (r : Reply GenerateData) (a : App) : App :=
  match r with
  | Rejected reason => generateTweet_catch reason a
  | Response status body json =>
      if status =? 401 then
        generateTweet_catch "Session expired. Please log in again."
          (setShowAuthModal true (setLoggedInUser None (clearAuthToken a)))
      else if negb (ok status) then
        generateTweet_catch (if Js.truthy body then body else "Generation failed") a
      else match json with
           | inl reason => generateTweet_catch reason a
           | inr data =>
               let a := setGeneratedTweet (content data) a in
               let a := addToHistory ("🤖 AI: " ++ Js.show (content data)) a in
               let draft := {| id := clock a; text := content data; posted := false |} in
               match content data with
               | Some _ =>
                   let a := setGeneratedTweets (fun prev => (prev ++ [draft])) a in
                   setIsTyping false (setIsGenerating false a)
               | None =>
                   generateTweet_catch Js.no_length
                     (writeGeneratedTweets (generatedTweets a ++ [draft]) a)
               end
           end
  end.

Definition generateTweet (topic : string) (a : App) : App * Async :=
  if Js.blank topic then (a, Done)
  else
    let a := addToHistory ("👤 You: " ++ topic) a in
    let a := setIsTyping true a in
    let a := setIsGenerating true a in
    (a, Await (Generate (getAuthToken a) topic)
          (fun r a' => (generateTweet_reply r a', Done))).

(** [handleAuthSubmit] *)
Definition handleAuthSubmit_catch (a : App) : App :=
  setMessageBox (Some {| message := "Authentication failed"; type := error |}) a.

Definition handleAuthSubmit_reply (r : Reply AuthData) (a : App) : App :=
  match r with
  | Rejected _ => handleAuthSubmit_catch a
  | Response status _ json =>
      if negb (ok status) then handleAuthSubmit_catch a
      else match json with
           | inl _ => handleAuthSubmit_catch a
           | inr data =>
               let a := setAuthToken (access_token data) a in
               let a := withLocalStorage
                          (LocalStorage.setAuthToken (Some (Js.show (access_token data)))
                             (localStorage a)) a in
               let a := withLocalStorage
                          (LocalStorage.setLoggedInUser (Some (authUsername a))
                             (localStorage a)) a in
               let a := setLoggedInUser (Some (authUsername a)) a in
               setShowAuthModal false a
           end
  end.

Definition handleAuthSubmit (a : App) : App * Async :=
  let endpoint := if isLoginMode a then "/login" else "/signup" in
  (a, Await (Auth endpoint (authUsername a) (authPassword a))
        (fun r a' => (handleAuthSubmit_reply r a', Done))).

(** [postGeneratedTweet]. On an entry without a text [handleDirectPost]
    throws at [content.trim()], before it changes anything, and the marking
    is not reached. *)
Definition postGeneratedTweet (i : Z) (a : App) : App * Async :=
  match find (fun t => id t =? i) (generatedTweets a) with
  | Some tweet =>
      match text tweet with
      | Some content =>
          andThen
            (setGeneratedTweets (map (fun t => if id t =? i then withPosted t else t)))
            (handleDirectPost content true a)
      | None => (a, Done)
      end
  | None => (a, Done)
  end.

Definition deleteGeneratedTweet (i : Z) (a : App) : App :=
  setGeneratedTweets (filter (fun t => negb (id t =? i))) a.

Definition editGeneratedTweet (i : Z) (newText : string) (a : App) : App :=
  setGeneratedTweets (map (fun t => if id t =? i then withText newText t else t)) a.

Definition handleLogout (a : App) : App :=
  let a := clearAuthToken a in
  let a := setLoggedInUser None a in
  let a := withLocalStorage (LocalStorage.setAuthToken None (localStorage a)) a in
  let a := withLocalStorage (LocalStorage.setLoggedInUser None (localStorage a)) a in
  let a := setTweets [] a in
  let a := setMyTweets [] a in
  let a := setGeneratedTweets (fun _ => []) a in
  let a := setHistory [] a in
  let a := setGeneratedTweet None a in
  setMessageBox (Some {| message := "Logged out successfully"; type := info |}) a.

(** ** Start of the page *)

(** The initial values of the signals. *)
Definition initial (store : LocalStorage.t) (host : string) (now : Z) : App :=
  {| command := ""; history := []; isPosting := false; generatedTweet := None;
     isGenerating := false; messageBox := None; showAuthModal := false;
     isLoginMode := true; authUsername := ""; authPassword := "";
     loggedInUser := None; lastTweetId := None; showTweetFeedback := false;
     tweets := []; generatedTweets := []; apiError := None; myTweets := [];
     isTyping := false; localStorage := store; hostname := host; clock := now |}.

(** The first effect: [if (saved) setGeneratedTweets(JSON.parse(saved))] on the
    key [generatedTweets]. It runs before the two saving effects have run for
    the first time, hence the bare write. *)
Definition loadGeneratedTweets (a : App) : App :=
  match LocalStorage.generatedTweets (localStorage a) with
  | Some saved => writeGeneratedTweets saved a
  | None => a
  end.

(** The last statement of [onMount]: the snapshot under [draftTweets], when
    there is one, is merged into the list. This is the specification's
    [loadInitial()]. *)
Definition loadInitial (a : App) : App :=
  match LocalStorage.draftTweets (localStorage a) with
  | Some savedDrafts =>
      setGeneratedTweets (fun prev => (filter posted prev ++ savedDrafts)) a
  | None => a
  end.

(** [onMount], with the calls it leaves outstanding. *)
Definition onMount (a : App) : App * list Async :=
  let token := getAuthToken a in
  let user := LocalStorage.loggedInUser (localStorage a) in
  let '(a, mine) :=
    if Js.truthy_opt token && Js.truthy_opt user
    then let '(a', p) := fetchMyTweets (setLoggedInUser user a) in (a', [p])
    else (setLoggedInUser None a, []) in
  let '(a, pub) := fetchTweets a in
  (loadInitial a, (mine ++ [pub])).

(** A page and the requests it is waiting for. *)
Record Config := { app : App; pending : list Async }.

(** Loading the page: the effects run once in the order of their creation
    (load, save, save drafts), then [onMount]. *)
Definition mount (store : LocalStorage.t) (host : string) (now : Z) : Config :=
  let a := saveDraftTweets
             (saveGeneratedTweets (loadGeneratedTweets (initial store host now))) in
  {| app := fst (onMount a); pending := snd (onMount a) |}.

(** ** The interface *)

Definition drafts (a : App) : list GeneratedItem :=
  filter (fun t => negb (posted t)) (generatedTweets a).

Definition postedTweets (a : App) : list GeneratedItem :=
  filter (fun t => posted t) (generatedTweets a).

(** What the user can do on the page. A row of the Drafts or Posted section is
    designated by its position in the section. *)
Inductive UiEvent :=
| CommandInput (value : string)
| CommandEnter
| ClickPost
| ClickGenerate
| ClickSpeak (supported : bool)
| SpeechResult (transcript : string)
| SpeechError (err : string)
| DraftInput (row : nat) (value : string)
| DraftPost (row : nat)
| DraftDelete (row : nat)
| PostedDelete (row : nat)
| PreviewPost
| PreviewEdit
| PreviewDelete
| ClickLogin
| ClickLogout
| AuthUsernameInput (value : string)
| AuthPasswordInput (value : string)
| AuthToggleMode
| AuthClose
| AuthSubmit
| CloseMessage.

Definition is_some {A : Type} (o : option A) : bool :=
  match o with Some _ => true | None => false end.

(** Whether the control exists and is active: conditional rendering, the
    [disabled], [maxlength] and [required] attributes. *)
Definition enabled (e : UiEvent) (a : App) : bool :=
  match e with
  | CommandInput value => (String.length value <=? MAX_CHAR_LIMIT)%nat
  | CommandEnter | ClickSpeak _ | SpeechResult _ | SpeechError _ => true
  | ClickPost => negb (isPosting a || Js.blank (command a))
  | ClickGenerate => negb (isGenerating a)
  | DraftInput row _ | DraftDelete row => is_some (nth_error (drafts a) row)
  | DraftPost row =>
      match nth_error (drafts a) row with
      | Some tweet =>
          match text tweet with
          | Some content =>
              negb (isPosting a || (MAX_CHAR_LIMIT <? String.length content)%nat)
          | None => false
          end
      | None => false
      end
  | PostedDelete row => is_some (nth_error (postedTweets a) row)
  | PreviewPost | PreviewEdit | PreviewDelete => Js.truthy_opt (generatedTweet a)
  | ClickLogin => negb (Js.truthy_opt (loggedInUser a))
  | ClickLogout => Js.truthy_opt (loggedInUser a)
  | AuthUsernameInput _ | AuthPasswordInput _ | AuthToggleMode | AuthClose =>
      showAuthModal a
  | AuthSubmit =>
      showAuthModal a && Js.truthy (authUsername a) && Js.truthy (authPassword a)
  | CloseMessage => is_some (messageBox a) || is_some (apiError a)
  end.

(** The handler attached to each control. The [onInput] handler of a draft's
    text area has the body of [editGeneratedTweet]. *)
Definition dispatch (e : UiEvent) (a : App) : App * Async :=
  match e with
  | CommandInput value => (setCommand value a, Done)
  | CommandEnter =>
      let '(a', p) := generateTweet (command a) a in (setCommand "" a', p)
  | ClickPost => handleDirectPost (command a) true a
  | ClickGenerate => generateTweet (command a) a
  | ClickSpeak supported =>
      if supported then (showMessageBox "Listening... speak your tweet." info a, Done)
      else (showMessageBox "Speech recognition not supported." error a, Done)
  | SpeechResult transcript => (closeMessageBox (setCommand transcript a), Done)
  | SpeechError err =>
      (showMessageBox ("Speech recognition error: " ++ err) error (closeMessageBox a), Done)
  | DraftInput row value =>
      match nth_error (drafts a) row with
      | Some tweet => (editGeneratedTweet (id tweet) value a, Done)
      | None => (a, Done)
      end
  | DraftPost row =>
      match nth_error (drafts a) row with
      | Some tweet => postGeneratedTweet (id tweet) a
      | None => (a, Done)
      end
  | DraftDelete row =>
      match nth_error (drafts a) row with
      | Some tweet => (deleteGeneratedTweet (id tweet) a, Done)
      | None => (a, Done)
      end
  | PostedDelete row =>
      match nth_error (postedTweets a) row with
      | Some tweet => (deleteGeneratedTweet (id tweet) a, Done)
      | None => (a, Done)
      end
  | PreviewPost => handleDirectPost (Js.show (generatedTweet a)) true a
  | PreviewEdit =>
      (setGeneratedTweet None
         (setCommand (if Js.truthy_opt (generatedTweet a)
                      then Js.show (generatedTweet a) else "") a), Done)
  | PreviewDelete => (setGeneratedTweet None a, Done)
  | ClickLogin => (setIsLoginMode true (setShowAuthModal true a), Done)
  | ClickLogout => (handleLogout a, Done)
  | AuthUsernameInput value => (setAuthUsername value a, Done)
  | AuthPasswordInput value => (setAuthPassword value a, Done)
  | AuthToggleMode => (setIsLoginMode (negb (isLoginMode a)) a, Done)
  | AuthClose => (setShowAuthModal false a, Done)
  | AuthSubmit => handleAuthSubmit a
  | CloseMessage => (closeMessageBox a, Done)
  end.

(** A user action on the page: nothing runs when the control is missing or
    inactive. *)
Definition fire (e : UiEvent) (a : App) : App * Async :=
  if enabled e a then dispatch e a else (a, Done).

(** ** The event loop *)

(** One task of the event loop: a user action, the reply of an outstanding
    request, or a reload of the page. [now] is the time of the task. *)
Inductive Label :=
| Ui (now : Z) (e : UiEvent)
| Deliver (now : Z) (rq : Request) (r : Reply (payload rq))
| Reload (now : Z).

Definition spawn (p : Async) : list Async :=
  match p with
  | Done => []
  | Await _ _ => [p]
  end.

(** The page once a task has run: [x] is what the task returned, [others] the
    calls that were already outstanding and still are. *)
Definition afterTask (x : App * Async) (others : list Async) : Config :=
  {| app := fst x; pending := others ++ spawn (snd x) |}.

(** The tasks a page can run. User actions and replies are followed on a page
    whose rows could be built; from a page whose rendering has thrown, only
    the reload is. *)
Inductive step : Label -> Config -> Config -> Prop :=
| step_ui now e c :
    renders (app c) = true ->
    enabled e (app c) = true ->
    step (Ui now e) c (afterTask (dispatch e (atTime now (app c))) (pending c))
| step_deliver now rq k r c before after :
    renders (app c) = true ->
    pending c = before ++ Await rq k :: after ->
    step (Deliver now rq r) c (afterTask (k r (atTime now (app c))) (before ++ after))
| step_reload now c :
    step (Reload now) c (mount (localStorage (app c)) (hostname (app c)) now).

(** Runs of the page in which every task meets the condition [G] on the
    environment. *)
Inductive run (G : Label -> App -> Prop) : Config -> list Label -> Config -> Prop :=
| run_nil c : run G c [] c
| run_cons c l c' ls c'' :
    G l (app c) -> step l c c' -> run G c' ls c'' -> run G c (l :: ls) c''.

(** No condition on the environment. *)
Definition any_task (l : Label) (a : App) : Prop := True.

(** ** Calls answered without another task in between *)

(** The reply [r] to the outstanding post request, if that is what the call
    is waiting for. *)
Definition answerPost (r : Reply PostData) (x : App * Async) : App * Async :=
  match snd x with
  | Await (PublicPost _ _) k => k r (fst x)
  | Await (DirectPost _ _ _) k => k r (fst x)
  | _ => x
  end.

Definition answerMirror (r : Reply unit) (x : App * Async) : App * Async :=
  match snd x with
  | Await (MirrorPost _ _) k => k r (fst x)
  | _ => x
  end.

Definition answerGenerate (r : Reply GenerateData) (x : App * Async) : App * Async :=
  match snd x with
  | Await (Generate _ _) k => k r (fst x)
  | _ => x
  end.

Definition answerAuth (r : Reply AuthData) (x : App * Async) : App * Async :=
  match snd x with
  | Await (Auth _ _ _) k => k r (fst x)
  | _ => x
  end.

(** A post answered by [primary] and, when the mirror is called, by [mirror]. *)
Definition answerBoth (primary : Reply PostData) (mirror : Reply unit)
    (x : App * Async) : App * Async :=
  answerMirror mirror (answerPost primary x).

(** ** Properties of states and runs *)

(** The time of a task. *)
Definition time (l : Label) : Z :=
  match l with
  | Ui now _ | Deliver now _ _ | Reload now => now
  end.



(** [a'] has the list, the store, the username and the clock of [a]. *)
Definition same_core (a a' : App) : Prop :=
  generatedTweets a' = generatedTweets a /\
  localStorage a' = localStorage a /\
  loggedInUser a' = loggedInUser a /\
  clock a' = clock a.

(** The snapshot under [draftTweets] is the unposted part of the list. *)
Definition synced (a : App) : Prop :=
  LocalStorage.draftTweets (localStorage a) = Some (drafts a).


(** The clock moves on between two tasks. *)
Definition ticking (l : Label) (a : App) : Prop := clock a < time l.






(** A token the client will send: what [getAuthToken] keeps. *)
Definition usable (token : option string) : bool :=
  match token with
  | Some t => Js.truthy t && negb (String.eqb t "undefined")
  | None => false
  end.

Definition username_present (a : App) : bool := Js.truthy_opt (loggedInUser a).




(** A reply that makes [handleDirectPost] enter its [catch] block. *)
Definition post_failed (r : Reply PostData) : Prop :=
  match r with
  | Rejected _ => True
  | Response status _ json =>
      ok status = false \/ exists reason, json = inl reason
  end.

(** The merge of the specification, in its words: the union of the list in
    memory and the snapshot, keyed on [id], the entry in memory winning when
    both have the id. *)
Definition mergeById (memory snapshot : list GeneratedItem) : list GeneratedItem :=
  memory ++ filter (fun s => negb (existsb (fun m => id m =? id s) memory)) snapshot.

(** The page when [onMount] reaches its last statement, the merge: the three
    effects have run, and the session has been read from the store. *)
Definition beforeMerge (store : LocalStorage.t) (host : string) (now : Z) : App :=
  let a := saveDraftTweets
             (saveGeneratedTweets (loadGeneratedTweets (initial store host now))) in
  if Js.truthy_opt (getAuthToken a) &&
     Js.truthy_opt (LocalStorage.loggedInUser (localStorage a))
  then setLoggedInUser (LocalStorage.loggedInUser (localStorage a)) a
  else setLoggedInUser None a.

(** ** States used in the examples *)

Module Scenario.

(** A first visit: nothing in the store. *)
Definition fresh : App := app (mount LocalStorage.empty "localhost" 0).

(** The user [bob] has logged in. *)
Definition signed_in : App :=
  handleAuthSubmit_reply (Response 200 "" (inr {| access_token := Some "tok" |}))
    (setAuthPassword "pw" (setAuthUsername "bob" (setShowAuthModal true fresh))).

(** One draft, generated at time 1. *)
Definition one_draft : App :=
  generateTweet_reply (Response 200 "" (inr {| content := Some "hello" |}))
    (atTime 1 signed_in).

(** A second draft with the same text, generated at time 2. *)
Definition two_drafts : App :=
  generateTweet_reply (Response 200 "" (inr {| content := Some "hello" |}))
    (atTime 2 one_draft).

(** The reply of a post that went through. *)
Definition posted_reply : Reply PostData :=
  Response 200 ""
    (inr {| tweet := {| tweet_id := 7; tweet_content := Some "hello";
                        tweet_text := None |} |}).

(** A text of 281 characters. *)
Definition long_text : string :=
  string_of_list_ascii (repeat "a"%char 281).

(** One draft of 281 characters, as left by an edit of [one_draft]. *)
Definition long_draft : App := editGeneratedTweet 1 long_text one_draft.

(** The draft of [one_draft] has been posted. *)
Definition one_posted : App :=
  fst (answerBoth posted_reply (Response 200 "" (inr tt))
         (postGeneratedTweet 1 one_draft)).

(** The draft of [one_draft] is published and the post call is answered
    by [r]. *)
Definition publish_answered (r : Reply PostData) : App * Async :=
  answerPost r (postGeneratedTweet 1 one_draft).

(** [one_posted], with the topic [cats] typed in the command input. *)
Definition typed : App := setCommand "cats" one_posted.

(** A store found at a page load: a draft saved before a posted entry, and
    no snapshot of the drafts. *)
Definition found : LocalStorage.t :=
  LocalStorage.setGeneratedTweets
    (Some [{| id := 1; text := Some "first"; posted := false |};
           {| id := 2; text := Some "second"; posted := true |}])
    LocalStorage.empty.

End Scenario.

(** Runs used in the examples, with the pages they go through. *)
Module Story.

(** What [handleAuthSubmit] and [generateTweet] leave to run when the reply
    comes. *)
Definition auth_k (r : Reply AuthData) (a : App) : App * Async :=
  (handleAuthSubmit_reply r a, Done).

Definition generate_k (r : Reply GenerateData) (a : App) : App * Async :=
  (generateTweet_reply r a, Done).

(** The page after the user action [e] at time [now]. *)
Definition ui (now : Z) (e : UiEvent) (c : Config) : Config :=
  afterTask (dispatch e (atTime now (app c))) (pending c).

(** The page after the reply [r] to the second outstanding call, which is
    left to [k], at time [now]. *)
Definition answer {A : Type} (now : Z) (k : Reply A -> App -> App * Async)
    (r : Reply A) (c : Config) : Config :=
  afterTask (k r (atTime now (app c))) (firstn 1 (pending c) ++ skipn 2 (pending c)).

(** A first visit: the user logs in as [bob]. *)
Definition token_reply : Reply AuthData :=
  Response 200 "" (inr {| access_token := Some "tok" |}).

Definition login : list Label :=
  [ Ui 1 ClickLogin;
    Ui 2 (AuthUsernameInput "bob");
    Ui 3 (AuthPasswordInput "pw");
    Ui 4 AuthSubmit;
    Deliver 5 (Auth "/login" "bob" "pw") token_reply ].

Definition page0 : Config := mount LocalStorage.empty "localhost" 0.
Definition page1 : Config := ui 1 ClickLogin page0.
Definition page2 : Config := ui 2 (AuthUsernameInput "bob") page1.
Definition page3 : Config := ui 3 (AuthPasswordInput "pw") page2.
Definition page4 : Config := ui 4 AuthSubmit page3.
Definition page5 : Config := answer 5 auth_k token_reply page4.

(** Then two topics are submitted one after the other, and the replies are
    handled at the times [t1] and [t2]. *)
Definition cats_reply : Reply GenerateData :=
  Response 200 "" (inr {| content := Some "Cats" |}).

Definition dogs_reply : Reply GenerateData :=
  Response 200 "" (inr {| content := Some "Dogs" |}).

Definition two_topics (t1 t2 : Z) : list Label :=
  [ Ui 6 (CommandInput "cats");
    Ui 7 CommandEnter;
    Ui 8 (CommandInput "dogs");
    Ui 9 CommandEnter;
    Deliver t1 (Generate (Some "tok") "cats") cats_reply;
    Deliver t2 (Generate (Some "tok") "dogs") dogs_reply ].

Definition page6 : Config := ui 6 (CommandInput "cats") page5.
Definition page7 : Config := ui 7 CommandEnter page6.
Definition page8 : Config := ui 8 (CommandInput "dogs") page7.
Definition page9 : Config := ui 9 CommandEnter page8.
Definition page10 (t1 : Z) : Config := answer t1 generate_k cats_reply page9.





End Story.


(** ** The rest of the screen *)

(** The theme: the [theme] signal, the [dark] class of the document element
    and the key [theme] of the store. *)
Module Theme.

Record t := { theme : string; dark : bool; stored : option string }.

(** The page as it is loaded, before [onMount]. *)
Definition initial (dark0 : bool) (saved : option string) : t :=
  {| theme := "light"; dark := dark0; stored := saved |}.

(** The first statements of [onMount]. *)
Definition onMount (s : t) : t :=
  let savedTheme := if Js.truthy_opt (stored s) then Js.show (stored s) else "light" in
  {| theme := savedTheme; dark := String.eqb savedTheme "dark"; stored := stored s |}.

Definition toggleTheme (s : t) : t :=
  let next := if String.eqb (theme s) "light" then "dark" else "light" in
  {| theme := next; dark := String.eqb next "dark"; stored := Some next |}.

End Theme.

(** A reply that makes [generateTweet] enter its [catch] block without
    ending the session. *)
Definition generate_failed (r : Reply GenerateData) : Prop :=
  match r with
  | Rejected _ => True
  | Response status _ json =>
      status <> 401 /\ (ok status = false \/ exists reason, json = inl reason)
  end.

(** A reply that makes [fetchMyTweets] or [handleAuthSubmit] enter its [catch]
    block. *)
Definition reply_failed {A : Type} (r : Reply A) : Prop :=
  match r with
  | Rejected _ => True
  | Response status _ json => ok status = false \/ exists reason, json = inl reason
  end.





(** With a token, the username shown is the one in the store. *)
Definition session_same (a : App) : Prop :=
  match getAuthToken a with
  | Some _ =>
      username_present a = true /\
      LocalStorage.loggedInUser (localStorage a) = loggedInUser a
  | None => loggedInUser a = None
  end.





(** ** The flags of the calls in flight *)


Definition generates (rq : Request) : bool :=
  match rq with
  | Generate _ _ => true
  | _ => false
  end.

(** The call [p] is waiting for the reply of a request of the kind [P]. *)
Definition waitsFor (P : Request -> bool) (p : Async) : bool :=
  match p with
  | Await rq _ => P rq
  | Done => false
  end.




(** A visit without an account: a draft is generated at time 3 and its text,
    still in the command box, is posted; later the same topic is generated
    again and the page is reloaded. *)
Module Visit.

Definition cats_reply : Reply GenerateData :=
  Response 200 "" (inr {| content := Some "cats" |}).

Definition posted_data : PostData :=
  {| tweet := {| tweet_id := 7; tweet_content := Some "cats"; tweet_text := None |} |}.

Definition post_reply : Reply PostData := Response 200 "" (inr posted_data).

Definition mirror_reply : Reply unit := Response 200 "" (inr tt).

Definition post_k : Reply PostData -> App -> App * Async :=
  handleDirectPost_reply "cats" false.

Definition mirror_k (r : Reply unit) (a : App) : App * Async :=
  (handleDirectPost_mirror "cats" posted_data r a, Done).


Definition page1 : Config := Story.ui 1 (CommandInput "cats") Story.page0.
Definition page2 : Config := Story.ui 2 ClickGenerate page1.
Definition page3 : Config := Story.answer 3 Story.generate_k cats_reply page2.
Definition page4 : Config := Story.ui 4 ClickPost page3.
Definition page5 : Config := Story.answer 5 post_k post_reply page4.
Definition page6 : Config := Story.answer 6 mirror_k mirror_reply page5.


Definition page7 : Config := Story.ui 7 (CommandInput "cats") page6.
Definition page8 : Config := Story.ui 8 ClickGenerate page7.
Definition page9 : Config := Story.answer 9 Story.generate_k cats_reply page8.
Definition page10 : Config := mount (localStorage (app page9)) (hostname (app page9)) 10.

(** A visit that goes on differently after the first draft: a second draft is
    generated and posted from the command box, so that the list has a draft
    before a posted entry. *)
Definition dogs_reply : Reply GenerateData :=
  Response 200 "" (inr {| content := Some "dogs" |}).

Definition dogs_data : PostData :=
  {| tweet := {| tweet_id := 8; tweet_content := Some "dogs"; tweet_text := None |} |}.



Definition second : list Label :=
  [ Ui 4 (CommandInput "dogs");
    Ui 5 ClickGenerate;
    Deliver 6 (Generate None "dogs") dogs_reply;
    Ui 7 ClickPost;
    Deliver 8 (DirectPost None "dogs" true) (Response 200 "" (inr dogs_data));
    Deliver 9 (MirrorPost "guest" "dogs") mirror_reply ].





End Visit.

(** ** The character limit *)






(** * Properties *)

(** ** Tactics *)

Ltac state_cbn :=
  cbn [fst snd app pending
       command history isPosting generatedTweet isGenerating messageBox showAuthModal
       isLoginMode authUsername authPassword loggedInUser lastTweetId showTweetFeedback
       tweets generatedTweets apiError myTweets isTyping localStorage hostname clock
       setCommand setHistory setIsPosting setGeneratedTweet setIsGenerating setMessageBox
       setShowAuthModal setIsLoginMode setAuthUsername setAuthPassword setLoggedInUser
       setLastTweetId setShowTweetFeedback setTweets writeGeneratedTweets setApiError
       setMyTweets setIsTyping withLocalStorage atTime
       LocalStorage.authToken LocalStorage.loggedInUser LocalStorage.generatedTweets
       LocalStorage.draftTweets LocalStorage.setAuthToken LocalStorage.setLoggedInUser
       LocalStorage.setGeneratedTweets LocalStorage.setDraftTweets] in *.



(** Steps of a run given with its pages. *)
Ltac guard_now :=
  vm_compute;
  first [ exact Logic.I | reflexivity | discriminate
        | intros _; split; reflexivity ].

Ltac by_ui c c' :=
  apply (run_cons _ c _ c'); [guard_now | apply step_ui; vm_compute; reflexivity |].

Ltac by_reply c c' now rq k r :=
  apply (run_cons _ c _ c');
  [guard_now | apply (step_deliver now rq k r c); vm_compute; reflexivity |].

(** ** Items and lists *)

Lemma map_id_keep (g : GeneratedItem -> GeneratedItem) (l : list GeneratedItem) :
  (forall t, id (g t) = id t) -> map id (map g l) = map id l.
Proof.
  intros Hg. rewrite map_map. apply map_ext. exact Hg.
Qed.



Lemma id_edit i newText t : id (if id t =? i then withText newText t else t) = id t.
Proof. destruct (id t =? i); reflexivity. Qed.

Lemma posted_edit i newText t :
  posted (if id t =? i then withText newText t else t) = posted t.
Proof. destruct (id t =? i); reflexivity. Qed.


Lemma NoDup_map_id_eq (l : list GeneratedItem) t u :
  NoDup (map id l) -> In t l -> In u l -> id t = id u -> t = u.
Proof.
  induction l as [| x l IH]; cbn [map In]; [intros _ [] |].
  intros Hn Ht Hu E. inversion Hn as [| ? ? Hx Hn']; subst.
  destruct Ht as [-> | Ht], Hu as [-> | Hu]; auto.
  - exfalso. apply Hx. rewrite E. now apply in_map.
  - exfalso. apply Hx. rewrite <- E. now apply in_map.
Qed.

(** A list split into its posted and its unposted entries. *)
Lemma partition_posted (l : list GeneratedItem) :
  Permutation (filter posted l ++ filter (fun t => negb (posted t)) l) l.
Proof.
  induction l as [| t l IH]; simpl; [constructor |].
  destruct (posted t); simpl.
  - now constructor.
  - apply Permutation_sym. apply Permutation_cons_app. now apply Permutation_sym.
Qed.

Lemma filter_unposted_posted (l : list GeneratedItem) :
  filter (fun t => negb (posted t)) (filter posted l) = [].
Proof.
  induction l as [| t l IH]; simpl; [reflexivity |].
  destruct (posted t) eqn:E; simpl; [rewrite E; simpl |]; exact IH.
Qed.

Lemma filter_posted_idem (l : list GeneratedItem) :
  filter posted (filter posted l) = filter posted l.
Proof.
  induction l as [| t l IH]; simpl; [reflexivity |].
  destruct (posted t) eqn:E; simpl; [rewrite E; f_equal |]; exact IH.
Qed.

Lemma filter_all_unposted (l : list GeneratedItem) :
  forallb (fun t => negb (posted t)) l = true ->
  filter posted l = [] /\ filter (fun t => negb (posted t)) l = l.
Proof.
  induction l as [| t l IH]; simpl; [auto |].
  intros H. apply andb_true_iff in H. destruct H as [Ht Hl].
  destruct (IH Hl) as [H1 H2]. destruct (posted t); [discriminate |].
  simpl. split; [exact H1 | now rewrite H2].
Qed.

(** ** Posting *)

(** What a post that went through does to the list: every entry with the
    posted text is marked. *)
Lemma handleDirectPost_success_list content data a :
  generatedTweets (handleDirectPost_success content data a) =
  map (fun t => if textIs content t then withPosted t else t)
      (generatedTweets a).
Proof. reflexivity. Qed.

Lemma handleDirectPost_catch_list reason a :
  generatedTweets (handleDirectPost_catch reason a) = generatedTweets a.
Proof. unfold handleDirectPost_catch, showMessageBox. reflexivity. Qed.

(** The mirror service answering with an error status changes nothing. *)
Lemma handleDirectPost_mirror_not_ok content data status body json a :
  handleDirectPost_mirror content data (Response status body json) a =
  handleDirectPost_success content data a.
Proof. reflexivity. Qed.

(** The request to the mirror service failing on the network is handled as a
    failure of the post. *)
Lemma handleDirectPost_mirror_rejected content data reason a :
  handleDirectPost_mirror content data (Rejected reason) a =
  handleDirectPost_catch reason a.
Proof. reflexivity. Qed.

Lemma handleDirectPost_failed content isPublic r a :
  Js.blank content = false -> post_failed r ->
  exists reason,
    answerPost r (handleDirectPost content isPublic a) =
    (handleDirectPost_catch reason (setIsPosting true a), Done).
Proof.
  intros Hb Hr. unfold handleDirectPost. rewrite Hb.
  destruct (Js.includes (hostname (setIsPosting true a)) "twitter-clone-ui.pages.dev");
    unfold answerPost; cbn [fst snd]; unfold handleDirectPost_reply;
    (destruct r as [reason | status body json]; [eexists; reflexivity |]);
    (destruct Hr as [Hr | [reason Hr]];
     [rewrite Hr; eexists; reflexivity
     | subst json; destruct (ok status); eexists; reflexivity]).
Qed.

(** When the post fails, [postGeneratedTweet] still marks the entry. *)
Lemma postGeneratedTweet_failed i tweet content r a :
  find (fun t => id t =? i) (generatedTweets a) = Some tweet ->
  text tweet = Some content -> Js.blank content = false -> post_failed r ->
  snd (answerPost r (postGeneratedTweet i a)) = Done /\
  generatedTweets (fst (answerPost r (postGeneratedTweet i a))) =
  map (fun t => if id t =? i then withPosted t else t) (generatedTweets a).
Proof.
  intros Hf Ht Hb Hr. unfold postGeneratedTweet. rewrite Hf, Ht.
  unfold handleDirectPost. rewrite Hb. unfold andThen.
  destruct (Js.includes (hostname (setIsPosting true a)) "twitter-clone-ui.pages.dev");
    unfold answerPost; cbn [fst snd andThenAsync]; unfold handleDirectPost_reply;
    (destruct r as [reason | status body json]; [split; reflexivity |]);
    (destruct Hr as [Hr | [reason Hr]];
     [rewrite Hr; split; reflexivity
     | subst json; destruct (ok status); split; reflexivity]).
Qed.

(** C1, at a failing input: the draft [hello] is published and the post call
    answers with status 500, or the request fails on the network: the error
    is shown, nothing reaches the feeds, and yet the draft is left marked as
    posted and is gone from the persisted drafts. *)
Theorem failed_publish_marks_posted :
  generatedTweets Scenario.one_draft = [{| id := 1; text := Some "hello"; posted := false |}] /\
  (let x := Scenario.publish_answered (Response 500 "Internal Server Error" (inl "")) in
   snd x = Done /\
   generatedTweets (fst x) = [{| id := 1; text := Some "hello"; posted := true |}] /\
   LocalStorage.draftTweets (localStorage (fst x)) = Some [] /\
   myTweets (fst x) = [] /\
   messageBox (fst x) = Some {| message := "Internal Server Error"; type := error |}) /\
  (let x := Scenario.publish_answered (Rejected "Failed to fetch") in
   snd x = Done /\
   generatedTweets (fst x) = [{| id := 1; text := Some "hello"; posted := true |}] /\
   LocalStorage.draftTweets (localStorage (fst x)) = Some [] /\
   myTweets (fst x) = [] /\
   messageBox (fst x) = Some {| message := "Failed to fetch"; type := error |}).
Proof. repeat split; reflexivity. Qed.

(** C6, at a failing input: the logged-in user posts [hello], [/direct-post]
    answers 200 with the tweet, and the request to the mirror service fails
    on the network: the [catch] block runs, the tweet reaches no feed, no
    confirmation is shown and the draft stays unposted. *)
Theorem mirror_network_error_fails_post :
  let x := answerBoth Scenario.posted_reply (Rejected "Failed to fetch")
             (handleDirectPost "hello" true Scenario.one_draft) in
  snd x = Done /\
  generatedTweets (fst x) = [{| id := 1; text := Some "hello"; posted := false |}] /\
  tweets (fst x) = [] /\
  myTweets (fst x) = [] /\
  showTweetFeedback (fst x) = false /\
  lastTweetId (fst x) = None /\
  messageBox (fst x) = Some {| message := "Failed to fetch"; type := error |}.
Proof. repeat split; reflexivity. Qed.




(** Publishing one of two drafts that have the same text marks both. *)
Lemma publish_marks_same_text :
  generatedTweets Scenario.two_drafts =
    [{| id := 1; text := Some "hello"; posted := false |};
     {| id := 2; text := Some "hello"; posted := false |}] /\
  generatedTweets
    (fst (answerBoth Scenario.posted_reply (Response 200 "" (inr tt))
            (postGeneratedTweet 1 Scenario.two_drafts))) =
    [{| id := 1; text := Some "hello"; posted := true |};
     {| id := 2; text := Some "hello"; posted := true |}].
Proof. split; reflexivity. Qed.

(** ** Editing *)

(** C3, counterexample: the text of a posted entry is replaced by
    [editGeneratedTweet]. *)
Lemma edit_of_posted_counterexample :
  generatedTweets Scenario.one_posted =
    [{| id := 1; text := Some "hello"; posted := true |}] /\
  generatedTweets (editGeneratedTweet 1 "changed" Scenario.one_posted) =
    [{| id := 1; text := Some "changed"; posted := true |}] /\
  generatedTweets (editGeneratedTweet 1 "changed" Scenario.one_posted) <>
    generatedTweets Scenario.one_posted.
Proof. repeat split; try reflexivity. discriminate. Qed.

Lemma editGeneratedTweet_list i newText a :
  generatedTweets (editGeneratedTweet i newText a) =
  map (fun t => if id t =? i then withText newText t else t) (generatedTweets a).
Proof. reflexivity. Qed.

(** C3, amended: [editGeneratedTweet] changes nothing when no entry has the
    id; otherwise it replaces the text of the entries with that id, posted or
    not, and keeps every id and every posted flag; the text area that edits
    an entry exists only for the rows of the Drafts section. *)
Theorem edit_replaces_text_only :
  forall (a : App) (i : Z) (newText : string),
    ((forall t, In t (generatedTweets a) -> id t <> i) ->
     generatedTweets (editGeneratedTweet i newText a) = generatedTweets a) /\
    map id (generatedTweets (editGeneratedTweet i newText a)) =
      map id (generatedTweets a) /\
    map posted (generatedTweets (editGeneratedTweet i newText a)) =
      map posted (generatedTweets a) /\
    (forall t, In t (generatedTweets (editGeneratedTweet i newText a)) ->
               id t = i -> text t = Some newText) /\
    (forall t, In t (generatedTweets a) -> id t <> i ->
               In t (generatedTweets (editGeneratedTweet i newText a))) /\
    (forall row value,
       enabled (DraftInput row value) a = true ->
       exists tweet,
         nth_error (drafts a) row = Some tweet /\ posted tweet = false /\
         dispatch (DraftInput row value) a = (editGeneratedTweet (id tweet) value a, Done)).
Proof.
  intros a i newText. rewrite editGeneratedTweet_list.
  split; [| split; [| split; [| split; [| split]]]].
  - intros Hn. rewrite <- (map_id (generatedTweets a)) at 2.
    apply map_ext_in. intros t Ht. specialize (Hn t Ht).
    apply Z.eqb_neq in Hn. now rewrite Hn.
  - apply map_id_keep. intros t. apply id_edit.
  - rewrite map_map. apply map_ext. intros t. apply posted_edit.
  - intros t Hin Hi. apply in_map_iff in Hin. destruct Hin as [u [Hu _]].
    destruct (id u =? i) eqn:E; subst t; [reflexivity |].
    apply Z.eqb_neq in E. contradiction.
  - intros t Hin Hi. apply in_map_iff. exists t. split; [| exact Hin].
    apply Z.eqb_neq in Hi. now rewrite Hi.
  - intros row value He. cbn [enabled dispatch] in *.
    destruct (nth_error (drafts a) row) as [tweet |] eqn:E; [| discriminate].
    exists tweet. split; [reflexivity |]. split; [| reflexivity].
    apply nth_error_In in E. unfold drafts in E. apply filter_In in E.
    destruct E as [_ E]. now destruct (posted tweet).
Qed.

Lemma edit_replaces_text_only_witness :
  (forall t, In t (generatedTweets Scenario.one_posted) -> id t <> 2) /\
  generatedTweets (editGeneratedTweet 2 "changed" Scenario.one_posted) =
    generatedTweets Scenario.one_posted.
Proof.
  assert (H : forall t, In t (generatedTweets Scenario.one_posted) -> id t <> 2).
  { intros t [Ht | []]. subst t. discriminate. }
  split; [exact H |].
  exact (proj1 (edit_replaces_text_only Scenario.one_posted 2 "changed") H).
Defined.

(** ** The length limit *)

(** C4, counterexample: called on a draft of 281 characters,
    [postGeneratedTweet] issues the post request with the whole text; once the
    request is answered the entry is marked as posted. *)
Lemma long_draft_counterexample :
  generatedTweets Scenario.long_draft =
    [{| id := 1; text := Some Scenario.long_text; posted := false |}] /\
  String.length Scenario.long_text = 281%nat /\
  match snd (postGeneratedTweet 1 Scenario.long_draft) with
  | Await (DirectPost bearer body_content _) _ =>
      bearer = Some "tok" /\ body_content = Scenario.long_text
  | _ => False
  end /\
  generatedTweets
    (fst (answerBoth Scenario.posted_reply (Response 200 "" (inr tt))
            (postGeneratedTweet 1 Scenario.long_draft))) =
    [{| id := 1; text := Some Scenario.long_text; posted := true |}].
Proof. repeat split; reflexivity. Qed.

(** C4, amended: the Post button of a draft longer than 280 characters is
    disabled; a click on it runs nothing: no request is issued and the state,
    the list included, is unchanged. *)
Theorem long_draft_post_disabled :
  forall (a : App) (row : nat) (tweet : GeneratedItem) (content : string),
    nth_error (drafts a) row = Some tweet ->
    text tweet = Some content ->
    (MAX_CHAR_LIMIT < String.length content)%nat ->
    enabled (DraftPost row) a = false /\ fire (DraftPost row) a = (a, Done).
Proof.
  intros a row tweet content Hrow Htext Hlen.
  assert (He : enabled (DraftPost row) a = false).
  { cbn [enabled]. rewrite Hrow, Htext. apply Nat.ltb_lt in Hlen. rewrite Hlen.
    now rewrite orb_true_r. }
  split; [exact He |]. unfold fire. now rewrite He.
Qed.

Lemma long_draft_post_disabled_witness :
  (nth_error (drafts Scenario.long_draft) 0 =
     Some {| id := 1; text := Some Scenario.long_text; posted := false |} /\
   (MAX_CHAR_LIMIT < String.length Scenario.long_text)%nat) /\
  fire (DraftPost 0) Scenario.long_draft = (Scenario.long_draft, Done).
Proof.
  assert (Hrow : nth_error (drafts Scenario.long_draft) 0 =
                 Some {| id := 1; text := Some Scenario.long_text; posted := false |})
    by reflexivity.
  assert (Hlen : (MAX_CHAR_LIMIT < String.length Scenario.long_text)%nat)
    by (vm_compute; lia).
  split; [split; assumption |].
  exact (proj2 (long_draft_post_disabled Scenario.long_draft 0 _ _ Hrow eq_refl Hlen)).
Defined.

(** ** Generation and the expired session *)

(** C5, counterexample: the topic [cats] is submitted with the Enter key and
    the call is answered 401: the command input is left empty. *)
Lemma enter_401_counterexample :
  let x := answerGenerate (Response 401 "" (inl "")) (fire CommandEnter Scenario.typed) in
  command Scenario.typed = "cats" /\
  snd x = Done /\
  command (fst x) = "" /\
  command (fst x) <> command Scenario.typed.
Proof. repeat split; try reflexivity. discriminate. Qed.

(** What a 401 does to the state in which it is handled. *)
Lemma generateTweet_reply_401 body json a :
  let a' := generateTweet_reply (Response 401 body json) a in
  getAuthToken a' = None /\ loggedInUser a' = None /\
  generatedTweets a' = generatedTweets a /\ showAuthModal a' = true /\
  command a' = command a /\ history a' = history a.
Proof. repeat split; reflexivity. Qed.

(** C5, amended: when a generation is answered 401, the token and the
    username signal are cleared, the list is unchanged, the auth modal is
    opened and the topic stays in the transcript; the command input keeps the
    topic when the generation was started with the button, and is emptied when
    it was started with the Enter key. *)
Theorem generate_401 :
  forall (a : App) (body : string) (json : string + GenerateData),
    Js.blank (command a) = false ->
    let viaButton := answerGenerate (Response 401 body json) (dispatch ClickGenerate a) in
    let viaEnter := answerGenerate (Response 401 body json) (dispatch CommandEnter a) in
    (forall x, x = viaButton \/ x = viaEnter ->
       snd x = Done /\
       getAuthToken (fst x) = None /\
       LocalStorage.authToken (localStorage (fst x)) = None /\
       loggedInUser (fst x) = None /\
       generatedTweets (fst x) = generatedTweets a /\
       showAuthModal (fst x) = true /\
       In ("👤 You: " ++ command a)%string (history (fst x))) /\
    command (fst viaButton) = command a /\
    command (fst viaEnter) = "".
Proof.
  intros a body json Hb viaButton viaEnter.
  subst viaButton viaEnter. cbn [dispatch]. unfold generateTweet. rewrite Hb.
  unfold answerGenerate. cbn [fst snd].
  split; [| split; reflexivity].
  intros x [Hx | Hx]; subst x; cbn [fst snd];
    (repeat split; try reflexivity);
    unfold generateTweet_reply; cbn [Z.eqb Pos.eqb];
    unfold generateTweet_catch, showMessageBox, addToHistory; state_cbn;
    apply in_or_app; right; left; reflexivity.
Qed.

Lemma generate_401_witness :
  Js.blank (command Scenario.typed) = false /\
  command (fst (answerGenerate (Response 401 "" (inl ""))
                  (dispatch ClickGenerate Scenario.typed))) = command Scenario.typed /\
  command (fst (answerGenerate (Response 401 "" (inl ""))
                  (dispatch CommandEnter Scenario.typed))) = "".
Proof.
  assert (Hb : Js.blank (command Scenario.typed) = false) by reflexivity.
  split; [exact Hb |].
  exact (proj2 (generate_401 Scenario.typed "" (inl "") Hb)).
Defined.

(** ** The merge at start *)

Lemma loadInitial_list a saved :
  LocalStorage.draftTweets (localStorage a) = Some saved ->
  generatedTweets (loadInitial a) = filter posted (generatedTweets a) ++ saved.
Proof. intros H. unfold loadInitial. rewrite H. reflexivity. Qed.

Lemma merge_unposted (l saved : list GeneratedItem) :
  forallb (fun t => negb (posted t)) saved = true ->
  filter (fun t => negb (posted t)) (filter posted l ++ saved) = saved.
Proof.
  intros Hs. destruct (filter_all_unposted saved Hs) as [_ Hu].
  now rewrite filter_app, filter_unposted_posted, Hu.
Qed.

Lemma merge_posted (l saved : list GeneratedItem) :
  forallb (fun t => negb (posted t)) saved = true ->
  filter posted (filter posted l ++ saved) = filter posted l.
Proof.
  intros Hs. destruct (filter_all_unposted saved Hs) as [Hp _].
  now rewrite filter_app, filter_posted_idem, Hp, app_nil_r.
Qed.

Lemma loadInitial_twice a saved :
  LocalStorage.draftTweets (localStorage a) = Some saved ->
  forallb (fun t => negb (posted t)) saved = true ->
  loadInitial (loadInitial a) = loadInitial a.
Proof.
  intros H Hs.
  unfold loadInitial at 2 3. rewrite H.
  unfold loadInitial, setGeneratedTweets, saveDraftTweets, saveGeneratedTweets.
  state_cbn.
  rewrite !(merge_unposted _ _ Hs), !(merge_posted _ _ Hs).
  reflexivity.
Qed.

Lemma forallb_filter_unposted (l : list GeneratedItem) :
  forallb (fun t => negb (posted t)) (filter (fun t => negb (posted t)) l) = true.
Proof.
  induction l as [| t l IH]; cbn [filter]; [reflexivity |].
  destruct (posted t) eqn:E; cbn [negb forallb]; [exact IH |].
  rewrite E. exact IH.
Qed.

(** The snapshot the merge reads has just been written from the list: the
    effect that saves the drafts ran before [onMount]. *)
Lemma beforeMerge_snapshot store host now :
  LocalStorage.draftTweets (localStorage (beforeMerge store host now)) =
  Some (filter (fun t => negb (posted t)) (generatedTweets (beforeMerge store host now))).
Proof.
  unfold beforeMerge. set (b := saveDraftTweets _).
  assert (Hb : LocalStorage.draftTweets (localStorage b) =
               Some (filter (fun t => negb (posted t)) (generatedTweets b)))
    by reflexivity.
  clearbody b.
  destruct (Js.truthy_opt (getAuthToken b) &&
            Js.truthy_opt (LocalStorage.loggedInUser (localStorage b)));
    exact Hb.
Qed.

Lemma mount_beforeMerge store host now :
  app (mount store host now) = loadInitial (beforeMerge store host now).
Proof.
  unfold mount, beforeMerge. cbn [app]. set (b := saveDraftTweets _). clearbody b.
  unfold onMount, fetchMyTweets, fetchTweets.
  destruct (Js.truthy_opt (getAuthToken b) &&
            Js.truthy_opt (LocalStorage.loggedInUser (localStorage b)));
    reflexivity.
Qed.

(** The union keyed on id of a list and a part of it is the list. *)
Lemma mergeById_part (f : GeneratedItem -> bool) (l : list GeneratedItem) :
  mergeById l (filter f l) = l.
Proof.
  unfold mergeById.
  assert (H : forall part, incl part l ->
            filter (fun s => negb (existsb (fun m => id m =? id s) l)) part = []).
  { induction part as [| s part IH]; intros Hi; cbn [filter]; [reflexivity |].
    assert (E : existsb (fun m => id m =? id s) l = true).
    { apply existsb_exists. exists s. split; [apply Hi; now left | apply Z.eqb_refl]. }
    rewrite E. cbn [negb]. apply IH. intros x Hx. apply Hi. now right. }
  rewrite H; [apply app_nil_r | apply incl_filter].
Qed.

(** C7: the merge as the page runs it, that is on the state [onMount] hands
    to it at a page load, whatever the store. The snapshot it reads is the
    unposted part of the list in memory, so the list it gives, the posted
    entries followed by the snapshot, has the entries of the union keyed on
    id of memory and snapshot, which here is memory itself; done twice in a
    row it gives the same state as done once; it repeats no id when memory
    repeats none, and the entry it has for an id is the one of memory. *)
Theorem startup_merge :
  forall (store : LocalStorage.t) (host : string) (now : Z),
    let a := beforeMerge store host now in
    let memory := generatedTweets a in
    let merged := generatedTweets (loadInitial a) in
    app (mount store host now) = loadInitial a /\
    (exists snapshot,
       LocalStorage.draftTweets (localStorage a) = Some snapshot /\
       merged = filter posted memory ++ snapshot /\
       Permutation merged (mergeById memory snapshot) /\
       (forall t, In t merged <-> In t memory \/ In t snapshot)) /\
    loadInitial (loadInitial a) = loadInitial a /\
    (NoDup (map id memory) ->
     NoDup (map id merged) /\
     forall t m, In t merged -> In m memory -> id t = id m -> t = m).
Proof.
  intros store host now a memory merged.
  pose proof (beforeMerge_snapshot store host now) as Hs. fold a in Hs. fold memory in Hs.
  assert (Hm : merged = filter posted memory ++ filter (fun t => negb (posted t)) memory)
    by (subst merged memory; now apply loadInitial_list).
  assert (Hp : Permutation merged memory)
    by (rewrite Hm; apply partition_posted).
  split; [apply mount_beforeMerge |]. split; [| split].
  - exists (filter (fun t => negb (posted t)) memory).
    split; [exact Hs |]. split; [exact Hm |]. split.
    + now rewrite mergeById_part.
    + intros t. split.
      * intros Ht. left. now apply (Permutation_in t Hp).
      * intros [Ht | Ht].
        -- now apply (Permutation_in t (Permutation_sym Hp)).
        -- apply (Permutation_in t (Permutation_sym Hp)).
           apply filter_In in Ht. apply Ht.
  - apply (loadInitial_twice a _ Hs). apply forallb_filter_unposted.
  - intros Hn. split.
    + apply (Permutation_NoDup (l := map id memory)); [| exact Hn].
      apply Permutation_map. now apply Permutation_sym.
    + intros t m Ht Hm' E.
      apply (NoDup_map_id_eq memory t m Hn); [| exact Hm' | exact E].
      now apply (Permutation_in t Hp).
Qed.

Lemma startup_merge_witness :
  NoDup (map id (generatedTweets (beforeMerge Scenario.found "localhost" 0))) /\
  generatedTweets (app (mount Scenario.found "localhost" 0)) =
    [{| id := 2; text := Some "second"; posted := true |};
     {| id := 1; text := Some "first"; posted := false |}] /\
  NoDup (map id (generatedTweets
                   (loadInitial (beforeMerge Scenario.found "localhost" 0)))).
Proof.
  assert (Hn : NoDup (map id (generatedTweets
                                (beforeMerge Scenario.found "localhost" 0)))).
  { vm_compute. repeat constructor; cbn; intuition discriminate. }
  split; [exact Hn |]. split; [reflexivity |].
  exact (proj1 (proj2 (proj2 (proj2 (startup_merge Scenario.found "localhost" 0))) Hn)).
Defined.

(** ** Invariants of the runs *)





Section Invariants.

Variable G : Label -> App -> Prop.
Variable I : App -> Prop.

(** What is asked of [I]: it only reads the core of the state, and the
    blocks that write the core keep it. *)
Hypothesis frame : forall a a', same_core a a' -> I a -> I a'.
Hypothesis tick : forall l a, I a -> G l a -> I (atTime (time l) a).
Hypothesis keep_edit : forall i newText a, I a -> I (editGeneratedTweet i newText a).
Hypothesis keep_delete : forall i a, I a -> I (deleteGeneratedTweet i a).
Hypothesis keep_mark : forall i a,
  I a -> I (setGeneratedTweets (map (fun t => if id t =? i then withPosted t else t)) a).
Hypothesis keep_success : forall content data a,
  I a -> I (handleDirectPost_success content data a).
Hypothesis keep_logout : forall a, I a -> I (handleLogout a).
Hypothesis keep_generate : forall now bearer topic r a,
  I a -> G (Deliver now (Generate bearer topic) r) a ->
  I (generateTweet_reply r (atTime now a)).
Hypothesis keep_auth : forall now endpoint username password r a,
  I a -> G (Deliver now (Auth endpoint username password) r) a ->
  I (handleAuthSubmit_reply r (atTime now a)).
Hypothesis keep_fetchMyTweets : forall r a, I a -> I (fetchMyTweets_reply r a).
Hypothesis keep_reload : forall now a,
  I a -> G (Reload now) a -> I (app (mount (localStorage a) (hostname a) now)).













End Invariants.

(** *** Runs and page loads *)

Lemma run_app G c ls c' ls' c'' :
  run G c ls c' -> run G c' ls' c'' -> run G c (ls ++ ls') c''.
Proof.
  induction 1 as [| c l c1 ls c2 HG Hs Hr IH]; intros H2; [exact H2 |].
  cbn [List.app]. eapply run_cons; eauto.
Qed.

Lemma run_weaken (G G' : Label -> App -> Prop) c ls c' :
  (forall l a, G l a -> G' l a) -> run G c ls c' -> run G' c ls c'.
Proof.
  intros HG. induction 1 as [| c l c1 ls c2 Hg Hs Hr IH]; [apply run_nil |].
  apply (run_cons _ c l c1); auto.
Qed.






Lemma run_login_ticking : run ticking Story.page0 Story.login Story.page5.
Proof.
  unfold Story.login.
  by_ui Story.page0 Story.page1.
  by_ui Story.page1 Story.page2.
  by_ui Story.page2 Story.page3.
  by_ui Story.page3 Story.page4.
  by_reply Story.page4 Story.page5 5 (Auth "/login" "bob" "pw") Story.auth_k
           Story.token_reply.
  apply run_nil.
Defined.




(** *** The persisted drafts *)





Lemma synced_frame a a' : same_core a a' -> synced a -> synced a'.
Proof. unfold synced, drafts. intros (-> & -> & _). auto. Qed.


























(** *** No id twice *)






























(** *** Token and username *)






















(** * More properties of the component *)

(** ** The token in the store *)

Lemma getAuthToken_stored a t :
  getAuthToken a = Some t ->
  LocalStorage.authToken (localStorage a) = Some t /\ usable (Some t) = true.
Proof.
  unfold getAuthToken, usable.
  destruct (LocalStorage.authToken (localStorage a)) as [u |]; [| discriminate].
  destruct (Js.truthy u && negb (String.eqb u "undefined")) eqn:E; [| discriminate].
  intros [= <-]. auto.
Qed.


Lemma usable_spec t :
  usable (Some t) = true <-> t <> "" /\ t <> "undefined".
Proof.
  unfold usable, Js.truthy. rewrite andb_true_iff, !negb_true_iff, !String.eqb_neq.
  tauto.
Qed.

(** X1: The token written by [setAuthToken] is read back by [getAuthToken] when
    it is usable and is read as no token otherwise; after [clearAuthToken]
    there is none; a token that is read is the stored one and is neither empty
    nor the text [undefined]. *)
Theorem auth_token_round_trip :
  forall (a : App) (token : option string),
    getAuthToken (setAuthToken token a) = (if usable token then token else None) /\
    getAuthToken (clearAuthToken a) = None /\
    (forall t, getAuthToken a = Some t ->
       LocalStorage.authToken (localStorage a) = Some t /\
       t <> "" /\ t <> "undefined").
Proof.
  intros a token. split; [| split].
  - unfold getAuthToken, setAuthToken, usable. state_cbn.
    destruct token as [t |]; cbn [Js.show]; [| reflexivity].
    destruct (Js.truthy t && negb (String.eqb t "undefined")); reflexivity.
  - reflexivity.
  - intros t Ht. destruct (getAuthToken_stored a t Ht) as [Hs Hu].
    split; [exact Hs |]. now apply usable_spec.
Qed.

Lemma auth_token_round_trip_witness :
  getAuthToken Scenario.signed_in = Some "tok" /\
  LocalStorage.authToken (localStorage Scenario.signed_in) = Some "tok" /\
  "tok" <> "" /\ "tok" <> "undefined".
Proof.
  assert (H : getAuthToken Scenario.signed_in = Some "tok") by reflexivity.
  split; [exact H |].
  exact (proj2 (proj2 (auth_token_round_trip Scenario.signed_in None)) "tok" H).
Defined.

(** ** Generation *)

Lemma ok_not_401 status : ok status = true -> (status =? 401) = false.
Proof.
  unfold ok. rewrite andb_true_iff, !Z.leb_le. intros [_ H].
  apply Z.eqb_neq. lia.
Qed.

(** X2: A generation that succeeds adds exactly one entry, at the end of the
    list as it is when the reply is handled, on a page [b] whose rows can be
    built: an unposted one with the generated text, whose id is the time at
    which the reply is handled, not the time of the call. The entry is in the
    store and in the persisted drafts, the text is offered as preview, the
    transcript gets the line of the call and then the line of the reply, and
    the session is as it was. *)
Theorem generation_appends_one_draft :
  forall (a b : App) (topic : string) (now status : Z) (body generated : string),
    Js.blank topic = false ->
    ok status = true ->
    renders b = true ->
    snd (generateTweet topic a) =
      Await (Generate (getAuthToken a) topic)
            (fun r a' => (generateTweet_reply r a', Done)) /\
    history (fst (generateTweet topic a)) = history a ++ [("👤 You: " ++ topic)%string] /\
    let b' := generateTweet_reply
                (Response status body (inr {| content := Some generated |}))
                (atTime now b) in
    let draft := {| id := now; text := Some generated; posted := false |} in
    generatedTweets b' = generatedTweets b ++ [draft] /\
    LocalStorage.generatedTweets (localStorage b') = Some (generatedTweets b ++ [draft]) /\
    LocalStorage.draftTweets (localStorage b') = Some (drafts b ++ [draft]) /\
    generatedTweet b' = Some generated /\
    history b' = history b ++ [("🤖 AI: " ++ generated)%string] /\
    isGenerating b' = false /\ isTyping b' = false /\
    getAuthToken b' = getAuthToken b /\ loggedInUser b' = loggedInUser b.
Proof.
  intros a b topic now status body generated Hb Hok _.
  unfold generateTweet. rewrite Hb. split; [reflexivity |]. split; [reflexivity |].
  cbn zeta. unfold generateTweet_reply. rewrite (ok_not_401 status Hok), Hok.
  cbn [negb content].
  unfold setGeneratedTweets, saveDraftTweets, saveGeneratedTweets, addToHistory, drafts.
  state_cbn. rewrite filter_app. repeat split; reflexivity.
Qed.

Lemma generation_appends_one_draft_witness :
  (Js.blank "cats" = false /\ ok 200 = true /\ renders Scenario.typed = true) /\
  clock Scenario.one_posted = 1 /\
  generatedTweets
    (generateTweet_reply (Response 200 "" (inr {| content := Some "Cats" |}))
       (atTime 7 Scenario.typed)) =
  generatedTweets Scenario.typed ++ [{| id := 7; text := Some "Cats"; posted := false |}].
Proof.
  split; [repeat split |]. split; [reflexivity |].
  exact (proj1 (proj2 (proj2 (generation_appends_one_draft Scenario.one_posted
                                Scenario.typed "cats" 7 200 "" "Cats"
                                eq_refl eq_refl eq_refl)))).
Defined.

(** X3: A generation that fails otherwise than by a 401 adds no entry and leaves
    the store, the session, the preview and the auth modal as they were; the
    transcript keeps the topic, and the error shown is never empty. *)
Theorem failed_generation_adds_nothing :
  forall (a : App) (topic : string) (r : Reply GenerateData),
    Js.blank topic = false ->
    generate_failed r ->
    let x := answerGenerate r (generateTweet topic a) in
    snd x = Done /\
    generatedTweets (fst x) = generatedTweets a /\
    localStorage (fst x) = localStorage a /\
    loggedInUser (fst x) = loggedInUser a /\
    generatedTweet (fst x) = generatedTweet a /\
    showAuthModal (fst x) = showAuthModal a /\
    history (fst x) = history a ++ [("👤 You: " ++ topic)%string] /\
    exists msg,
      Js.truthy msg = true /\
      messageBox (fst x) = Some {| message := msg; type := error |} /\
      apiError (fst x) = Some msg.
Proof.
  intros a topic r Hb Hr x. subst x.
  unfold generateTweet. rewrite Hb. unfold answerGenerate. cbn [fst snd].
  unfold generateTweet_reply.
  assert (Hc : forall reason b,
            same_core b (generateTweet_catch reason b) /\
            generatedTweet (generateTweet_catch reason b) = generatedTweet b /\
            showAuthModal (generateTweet_catch reason b) = showAuthModal b /\
            history (generateTweet_catch reason b) = history b /\
            exists msg,
              Js.truthy msg = true /\
              messageBox (generateTweet_catch reason b) =
                Some {| message := msg; type := error |} /\
              apiError (generateTweet_catch reason b) = Some msg).
  { intros reason b. repeat split.
    unfold generateTweet_catch, showMessageBox. state_cbn.
    destruct (Js.truthy reason) eqn:E; eexists; (split; [| split; reflexivity]);
      [exact E | reflexivity]. }
  assert (Hgoal : forall reason,
            let b := setIsGenerating true (setIsTyping true
                       (addToHistory ("👤 You: " ++ topic) a)) in
            generatedTweets (generateTweet_catch reason b) = generatedTweets a /\
            localStorage (generateTweet_catch reason b) = localStorage a /\
            loggedInUser (generateTweet_catch reason b) = loggedInUser a /\
            generatedTweet (generateTweet_catch reason b) = generatedTweet a /\
            showAuthModal (generateTweet_catch reason b) = showAuthModal a /\
            history (generateTweet_catch reason b) =
              history a ++ [("👤 You: " ++ topic)%string] /\
            exists msg,
              Js.truthy msg = true /\
              messageBox (generateTweet_catch reason b) =
                Some {| message := msg; type := error |} /\
              apiError (generateTweet_catch reason b) = Some msg).
  { intros reason b. destruct (Hc reason b) as (_ & _ & _ & _ & Hm).
    repeat split; try reflexivity. exact Hm. }
  destruct r as [reason | status body json]; [split; [reflexivity | apply Hgoal] |].
  destruct Hr as [H401 Hr]. apply Z.eqb_neq in H401. rewrite H401.
  destruct Hr as [Hr | [reason Hr]].
  - rewrite Hr. cbn [negb]. split; [reflexivity | apply Hgoal].
  - subst json. destruct (negb (ok status)); (split; [reflexivity | apply Hgoal]).
Qed.

Lemma failed_generation_adds_nothing_witness :
  (Js.blank "cats" = false /\
   generate_failed (Response 500 "Internal Server Error" (inl ""))) /\
  generatedTweets
    (fst (answerGenerate (Response 500 "Internal Server Error" (inl ""))
            (generateTweet "cats" Scenario.one_draft))) =
  generatedTweets Scenario.one_draft.
Proof.
  assert (Hr : generate_failed (Response 500 "Internal Server Error" (inl ""))).
  { split; [discriminate | left; reflexivity]. }
  split; [split; [reflexivity | exact Hr] |].
  exact (proj1 (proj2 (failed_generation_adds_nothing Scenario.one_draft "cats" _
                         eq_refl Hr))).
Defined.

(** ** Posting *)

(** X5: A post that went through puts the tweet, its text taken from [content] or
    else from [text], at the head of both feeds, records its id as the last
    tweet id, shows the confirmation, drops the preview and adds a line to the
    transcript; the session is as it was. *)
Theorem post_success_effects :
  forall (a : App) (text : string) (isPublic : bool)
         (status : Z) (body : string) (data : PostData) (mirror : Reply unit),
    Js.blank text = false ->
    ok status = true ->
    (forall reason, mirror <> Rejected reason) ->
    let x := answerBoth (Response status body (inr data)) mirror
               (handleDirectPost text isPublic a) in
    let newTweet := {| tweet_id := tweet_id (tweet data);
                       tweet_content := tweet_content (tweet data);
                       tweet_text := Js.or (tweet_content (tweet data))
                                           (tweet_text (tweet data)) |} in
    tweets (fst x) = newTweet :: tweets a /\
    myTweets (fst x) = newTweet :: myTweets a /\
    lastTweetId (fst x) = Some (tweet_id (tweet data)) /\
    showTweetFeedback (fst x) = true /\
    generatedTweet (fst x) = None /\
    history (fst x) =
      history a ++ [("🤖 AI: Posted: " ++ Js.dquote ++ Js.show (tweet_text newTweet)
                     ++ Js.dquote)%string] /\
    getAuthToken (fst x) = getAuthToken a /\
    loggedInUser (fst x) = loggedInUser a.
Proof.
  intros a text isPublic status body data mirror Hb Hok Hm x newTweet.
  subst x newTweet. unfold handleDirectPost. rewrite Hb.
  destruct (Js.includes (hostname (setIsPosting true a)) "twitter-clone-ui.pages.dev");
    unfold answerBoth, answerPost; cbn [fst snd]; unfold handleDirectPost_reply;
    rewrite Hok; cbn [negb]; unfold answerMirror; cbn [fst snd].
  - repeat split; reflexivity.
  - destruct mirror as [reason | s b j]; [now destruct (Hm reason) |].
    repeat split; reflexivity.
Qed.

Lemma post_success_effects_witness :
  (Js.blank "hello" = false /\ ok 200 = true /\
   (forall reason, Response 200 "" (inr tt) <> Rejected (A := unit) reason)) /\
  myTweets (fst (answerBoth Scenario.posted_reply (Response 200 "" (inr tt))
                   (handleDirectPost "hello" true Scenario.one_draft))) =
  [{| tweet_id := 7; tweet_content := Some "hello"; tweet_text := Some "hello" |}].
Proof.
  split; [split; [reflexivity | split; [reflexivity | discriminate]] |].
  refine (proj1 (proj2 (post_success_effects Scenario.one_draft "hello" true 200 ""
                          {| tweet := {| tweet_id := 7; tweet_content := Some "hello";
                                         tweet_text := None |} |}
                          (Response 200 "" (inr tt)) eq_refl eq_refl _))).
  discriminate.
Defined.

(** X6: A post whose call fails changes nothing but the message: the list, the
    feeds, the store, the session, the preview and the last tweet id are as
    they were, and the error shown is never empty. A blank text is refused
    before any request, with its own message. *)
Theorem failed_post_changes_nothing :
  forall (a : App) (text : string) (isPublic : bool) (r : Reply PostData),
    (Js.blank text = false -> post_failed r ->
     let x := answerPost r (handleDirectPost text isPublic a) in
     snd x = Done /\
     generatedTweets (fst x) = generatedTweets a /\
     tweets (fst x) = tweets a /\ myTweets (fst x) = myTweets a /\
     localStorage (fst x) = localStorage a /\
     loggedInUser (fst x) = loggedInUser a /\
     generatedTweet (fst x) = generatedTweet a /\
     lastTweetId (fst x) = lastTweetId a /\
     showTweetFeedback (fst x) = showTweetFeedback a /\
     history (fst x) = history a /\
     exists msg,
       Js.truthy msg = true /\
       messageBox (fst x) = Some {| message := msg; type := error |}) /\
    (Js.blank text = true ->
     handleDirectPost text isPublic a =
       (showMessageBox "Cannot post empty tweet" error a, Done)).
Proof.
  intros a text isPublic r. split.
  - intros Hb Hr x. subst x.
    destruct (handleDirectPost_failed text isPublic r a Hb Hr) as [reason ->].
    cbn [fst snd]. repeat split.
    unfold handleDirectPost_catch, showMessageBox. state_cbn.
    destruct (Js.truthy reason) eqn:E; eexists; (split; [| reflexivity]);
      [exact E | reflexivity].
  - intros Hb. unfold handleDirectPost. now rewrite Hb.
Qed.

Lemma failed_post_changes_nothing_witness :
  (Js.blank "hello" = false /\
   post_failed (Response 500 "Internal Server Error" (inl ""))) /\
  generatedTweets
    (fst (answerPost (Response 500 "Internal Server Error" (inl ""))
            (handleDirectPost "hello" true Scenario.one_draft))) =
  generatedTweets Scenario.one_draft.
Proof.
  assert (Hr : post_failed (Response 500 "Internal Server Error" (inl "")))
    by (left; reflexivity).
  split; [split; [reflexivity | exact Hr] |].
  exact (proj1 (proj2 (proj1 (failed_post_changes_nothing Scenario.one_draft "hello"
                                true _) eq_refl Hr))).
Defined.

(** X7: Where the post goes. On the public clone it goes to [/public-post],
    without a token and marked as posted, and the mirror service is not
    called. Elsewhere it goes to [/direct-post] with the token of the store,
    and once it went through, to the mirror service under the username, or
    under [guest] when there is none. *)
Theorem post_routing :
  forall (a : App) (text : string) (isPublic : bool)
         (status : Z) (body : string) (data : PostData),
    Js.blank text = false ->
    ok status = true ->
    let first := snd (handleDirectPost text isPublic a) in
    let second := snd (answerPost (Response status body (inr data))
                         (handleDirectPost text isPublic a)) in
    if Js.includes (hostname a) "twitter-clone-ui.pages.dev"
    then (exists k, first = Await (PublicPost text true) k) /\ second = Done
    else (exists k, first = Await (DirectPost (getAuthToken a) text isPublic) k) /\
         (exists k, second =
            Await (MirrorPost (if Js.truthy_opt (loggedInUser a)
                               then Js.show (loggedInUser a) else "guest") text) k).
Proof.
  intros a text isPublic status body data Hb Hok first second. subst first second.
  unfold handleDirectPost. rewrite Hb.
  change (hostname (setIsPosting true a)) with (hostname a).
  destruct (Js.includes (hostname a) "twitter-clone-ui.pages.dev");
    unfold answerPost; cbn [fst snd]; unfold handleDirectPost_reply;
    rewrite Hok; cbn [negb fst snd].
  - split; [eexists; reflexivity | reflexivity].
  - split; eexists; reflexivity.
Qed.

Lemma post_routing_witness :
  (Js.blank "hello" = false /\ ok 200 = true) /\
  exists k,
    snd (answerPost Scenario.posted_reply (handleDirectPost "hello" true Scenario.fresh)) =
    Await (MirrorPost "guest" "hello") k.
Proof.
  split; [split; reflexivity |].
  exact (proj2 (post_routing Scenario.fresh "hello" true 200 ""
                  {| tweet := {| tweet_id := 7; tweet_content := Some "hello";
                                 tweet_text := None |} |} eq_refl eq_refl)).
Defined.

(** ** Logging out, deleting, editing *)

Lemma filter_comm (A : Type) (f g : A -> bool) (l : list A) :
  filter f (filter g l) = filter g (filter f l).
Proof.
  induction l as [| x l IH]; cbn [filter]; [reflexivity |].
  destruct (f x) eqn:Ef, (g x) eqn:Eg; cbn [filter];
    rewrite ?Ef, ?Eg, IH; reflexivity.
Qed.

Lemma filter_idem (A : Type) (f : A -> bool) (l : list A) :
  filter f (filter f l) = filter f l.
Proof.
  induction l as [| x l IH]; cbn [filter]; [reflexivity |].
  destruct (f x) eqn:Ef; cbn [filter]; rewrite ?Ef, IH; reflexivity.
Qed.


Lemma deleteGeneratedTweet_list i a :
  generatedTweets (deleteGeneratedTweet i a) =
  filter (fun t => negb (id t =? i)) (generatedTweets a).
Proof. reflexivity. Qed.

(** X9: Deleting an id removes every entry with that id, posted or not, and keeps
    the others in their order; with no such entry the list is unchanged;
    deleting again changes nothing, and two deletions can be done in either
    order. *)
Theorem delete_removes_the_id :
  forall (a : App) (i j : Z),
    generatedTweets (deleteGeneratedTweet i a) =
      filter (fun t => negb (id t =? i)) (generatedTweets a) /\
    (forall t, In t (generatedTweets (deleteGeneratedTweet i a)) <->
               In t (generatedTweets a) /\ id t <> i) /\
    (exists gone,
       Permutation (generatedTweets a) (generatedTweets (deleteGeneratedTweet i a) ++ gone) /\
       Forall (fun t => id t = i) gone) /\
    ((forall t, In t (generatedTweets a) -> id t <> i) ->
     generatedTweets (deleteGeneratedTweet i a) = generatedTweets a) /\
    deleteGeneratedTweet i (deleteGeneratedTweet i a) = deleteGeneratedTweet i a /\
    deleteGeneratedTweet i (deleteGeneratedTweet j a) =
      deleteGeneratedTweet j (deleteGeneratedTweet i a).
Proof.
  intros a i j. split; [reflexivity |]. split; [| split; [| split; [| split]]].
  - intros t. rewrite deleteGeneratedTweet_list, filter_In, negb_true_iff, Z.eqb_neq.
    tauto.
  - exists (filter (fun t => id t =? i) (generatedTweets a)). split.
    + rewrite deleteGeneratedTweet_list.
      induction (generatedTweets a) as [| t l IH]; cbn [filter]; [constructor |].
      destruct (id t =? i); cbn [negb app].
      * now apply Permutation_cons_app.
      * now constructor.
    + apply Forall_forall. intros t Ht. apply filter_In in Ht.
      now apply Z.eqb_eq.
  - intros Hn. rewrite deleteGeneratedTweet_list.
    induction (generatedTweets a) as [| t l IH]; cbn [filter]; [reflexivity |].
    assert (Ht : id t <> i) by (apply Hn; now left).
    apply Z.eqb_neq in Ht. rewrite Ht. cbn [negb]. f_equal.
    apply IH. intros u Hu. apply Hn. now right.
  - unfold deleteGeneratedTweet, setGeneratedTweets, saveDraftTweets, saveGeneratedTweets.
    state_cbn. rewrite !filter_idem. reflexivity.
  - unfold deleteGeneratedTweet, setGeneratedTweets, saveDraftTweets, saveGeneratedTweets.
    state_cbn.
    rewrite (filter_comm _ (fun t => negb (id t =? i)) (fun t => negb (id t =? j))).
    reflexivity.
Qed.

Lemma delete_removes_the_id_witness :
  (forall t, In t (generatedTweets Scenario.one_posted) -> id t <> 2) /\
  generatedTweets (deleteGeneratedTweet 2 Scenario.one_posted) =
    generatedTweets Scenario.one_posted.
Proof.
  assert (H : forall t, In t (generatedTweets Scenario.one_posted) -> id t <> 2).
  { intros t [Ht | []]. subst t. discriminate. }
  split; [exact H |].
  exact (proj1 (proj2 (proj2 (proj2 (delete_removes_the_id Scenario.one_posted 2 2)))) H).
Defined.






(** ** Refreshing the feeds and logging in *)

(** X11: [fetchMyTweets]: a reply that is ok and parses replaces the user's feed
    and nothing else; any failure, a network failure included, removes the
    token and the username, asks to log in, and leaves the user's feed, the
    list and its persisted copies as they were. *)
Theorem fetchMyTweets_logs_out_on_failure :
  forall (a : App) (r : Reply (list Tweet)),
    let b := fetchMyTweets_reply r a in
    (forall status body data,
       r = Response status body (inr data) -> ok status = true ->
       myTweets b = data /\ localStorage b = localStorage a /\
       loggedInUser b = loggedInUser a /\ messageBox b = messageBox a) /\
    (reply_failed r ->
       getAuthToken b = None /\ loggedInUser b = None /\
       myTweets b = myTweets a /\ generatedTweets b = generatedTweets a /\
       LocalStorage.generatedTweets (localStorage b) =
         LocalStorage.generatedTweets (localStorage a) /\
       LocalStorage.draftTweets (localStorage b) =
         LocalStorage.draftTweets (localStorage a) /\
       messageBox b =
         Some {| message := "Login required to view your tweets."; type := error |}).
Proof.
  intros a r b. subst b. split.
  - intros status body data -> Hok. unfold fetchMyTweets_reply. rewrite Hok.
    repeat split; reflexivity.
  - intros Hr. unfold fetchMyTweets_reply.
    destruct r as [reason | status body json]; [repeat split; reflexivity |].
    destruct Hr as [Hr | [reason Hr]].
    + rewrite Hr. repeat split; reflexivity.
    + subst json. destruct (negb (ok status)); repeat split; reflexivity.
Qed.

Lemma fetchMyTweets_logs_out_on_failure_witness :
  reply_failed (Rejected (A := list Tweet) "Failed to fetch") /\
  getAuthToken (fetchMyTweets_reply (Rejected "Failed to fetch") Scenario.signed_in) = None /\
  loggedInUser (fetchMyTweets_reply (Rejected "Failed to fetch") Scenario.signed_in) = None.
Proof.
  assert (Hr : reply_failed (Rejected (A := list Tweet) "Failed to fetch"))
    by exact Logic.I.
  split; [exact Hr |].
  destruct (proj2 (fetchMyTweets_logs_out_on_failure Scenario.signed_in
                     (Rejected "Failed to fetch")) Hr) as (H1 & H2 & _).
  split; [exact H1 | exact H2].
Defined.

(** X12: [handleAuthSubmit] asks [/login] in login mode and [/signup] otherwise,
    with the two fields. A reply that fails changes nothing but the message:
    the modal stays open and the store, the session and the fields are as
    they were. A reply that is ok and parses stores the token and the
    username of the field, shows that username and closes the modal. *)
Theorem auth_submit_outcomes :
  forall (a : App) (r : Reply AuthData),
    (exists k,
       handleAuthSubmit a =
       (a, Await (Auth (if isLoginMode a then "/login" else "/signup")
                       (authUsername a) (authPassword a)) k)) /\
    (reply_failed r ->
       let b := fst (answerAuth r (handleAuthSubmit a)) in
       localStorage b = localStorage a /\ loggedInUser b = loggedInUser a /\
       showAuthModal b = showAuthModal a /\ authUsername b = authUsername a /\
       authPassword b = authPassword a /\ generatedTweets b = generatedTweets a /\
       messageBox b = Some {| message := "Authentication failed"; type := error |}) /\
    (forall status body data,
       r = Response status body (inr data) -> ok status = true ->
       let b := fst (answerAuth r (handleAuthSubmit a)) in
       LocalStorage.authToken (localStorage b) = Some (Js.show (access_token data)) /\
       LocalStorage.loggedInUser (localStorage b) = Some (authUsername a) /\
       loggedInUser b = Some (authUsername a) /\
       showAuthModal b = false /\
       generatedTweets b = generatedTweets a /\
       LocalStorage.draftTweets (localStorage b) =
         LocalStorage.draftTweets (localStorage a)).
Proof.
  intros a r. split; [eexists; reflexivity |]. split.
  - intros Hr. unfold handleAuthSubmit, answerAuth. cbn [fst snd].
    unfold handleAuthSubmit_reply.
    destruct r as [reason | status body json]; [repeat split; reflexivity |].
    destruct Hr as [Hr | [reason Hr]].
    + rewrite Hr. repeat split; reflexivity.
    + subst json. destruct (negb (ok status)); repeat split; reflexivity.
  - intros status body data -> Hok. unfold handleAuthSubmit, answerAuth.
    cbn [fst snd]. unfold handleAuthSubmit_reply. rewrite Hok.
    repeat split; reflexivity.
Qed.

Lemma auth_submit_outcomes_witness :
  reply_failed (Response (A := AuthData) 401 "Unauthorized" (inl "")) /\
  loggedInUser (fst (answerAuth (Response 401 "Unauthorized" (inl ""))
                       (handleAuthSubmit (app Story.page3)))) =
  loggedInUser (app Story.page3).
Proof.
  assert (Hr : reply_failed (Response (A := AuthData) 401 "Unauthorized" (inl "")))
    by (left; reflexivity).
  split; [exact Hr |].
  exact (proj1 (proj2 (proj1 (proj2 (auth_submit_outcomes (app Story.page3) _)) Hr))).
Defined.

(** ** What the page asks for *)












(** ** Reloading the page *)







(** *** The session across a reload *)

Lemma same_ext a a' :
  LocalStorage.authToken (localStorage a') = LocalStorage.authToken (localStorage a) ->
  LocalStorage.loggedInUser (localStorage a') =
    LocalStorage.loggedInUser (localStorage a) ->
  loggedInUser a' = loggedInUser a ->
  session_same a -> session_same a'.
Proof.
  unfold session_same, username_present, getAuthToken. intros -> -> ->. auto.
Qed.






Lemma same_loadInitial a : session_same a -> session_same (loadInitial a).
Proof.
  unfold loadInitial.
  destruct (LocalStorage.draftTweets (localStorage a)); [| auto].
  apply same_ext; reflexivity.
Qed.









(** ** A posted entry stays posted *)

Section Pending.

Variable G : Label -> App -> Prop.
Variable I : App -> Prop.

Hypothesis tick : forall l a, I a -> G l a -> I (atTime (time l) a).
Hypothesis keep_catch : forall reason a, I a -> I (handleDirectPost_catch reason a).
Hypothesis keep_fetchTweets : forall r a, I a -> I (fetchTweets_reply r a).
Hypothesis keep_mark : forall i a,
  I a -> I (setGeneratedTweets (map (fun t => if id t =? i then withPosted t else t)) a).
Hypothesis keep_success : forall content data a,
  I a -> I (handleDirectPost_success content data a).
Hypothesis keep_generate : forall now bearer topic r a,
  I a -> G (Deliver now (Generate bearer topic) r) a ->
  I (generateTweet_reply r (atTime now a)).
Hypothesis keep_auth : forall now endpoint username password r a,
  I a -> G (Deliver now (Auth endpoint username password) r) a ->
  I (handleAuthSubmit_reply r (atTime now a)).
Hypothesis keep_fetchMyTweets : forall r a, I a -> I (fetchMyTweets_reply r a).












End Pending.

















(** ** The character limit *)
























(** ** The rows of the Drafts section *)











(** ** The flags of the calls in flight *)





























Lemma run_first_of_two :
  run any_task Story.page0 (Story.login ++ firstn 5 (Story.two_topics 10 11))
    (Story.page10 10).
Proof.
  apply (run_app _ _ _ Story.page5).
  - apply (run_weaken ticking); [intros; exact Logic.I | exact run_login_ticking].
  - cbn [firstn Story.two_topics].
    by_ui Story.page5 Story.page6.
    by_ui Story.page6 Story.page7.
    by_ui Story.page7 Story.page8.
    by_ui Story.page8 Story.page9.
    by_reply Story.page9 (Story.page10 10) 10 (Generate (Some "tok") "cats")
             Story.generate_k Story.cats_reply.
    apply run_nil.
Qed.

(** The converse does not hold: with two calls of [/generate] outstanding, the
    first reply lowers the flags while the second call is still awaited. *)
Lemma flags_down_while_waiting :
  run any_task Story.page0 (Story.login ++ firstn 5 (Story.two_topics 10 11))
    (Story.page10 10) /\
  isGenerating (app (Story.page10 10)) = false /\
  isTyping (app (Story.page10 10)) = false /\
  existsb (waitsFor generates) (pending (Story.page10 10)) = true.
Proof. split; [exact run_first_of_two | repeat split]. Qed.

(** ** The theme *)

(** X20: After a click on the theme button the theme is [light] or [dark], the
    [dark] class of the document is set exactly for [dark], and the choice is
    in the store: a reload of the page gives the same theme and class,
    whatever the class of the document as loaded. A second and a third click
    give the theme of the first again. *)
Theorem theme_toggle_persists :
  forall (s : Theme.t) (dark0 : bool),
    let s' := Theme.toggleTheme s in
    (Theme.theme s' = "light" \/ Theme.theme s' = "dark") /\
    (Theme.dark s' = true <-> Theme.theme s' = "dark") /\
    Theme.onMount (Theme.initial dark0 (Theme.stored s')) = s' /\
    Theme.toggleTheme (Theme.toggleTheme s') = s'.
Proof.
  intros s dark0. cbn zeta. unfold Theme.toggleTheme.
  destruct (String.eqb (Theme.theme s) "light"); cbn.
  - repeat apply conj; auto.
  - repeat apply conj; auto; discriminate.
Qed.
